(** * Verification of the helper logic of the Phoenix / LlamaIndex tutorial

    The development embeds the three helpers of
    [llama_index_search_and_retrieval_tutorial.ipynb] that carry logic of their
    own:

    - [process_binary_responses] (parsing of the evaluator's textual answers),
    - [load_llama_index_database_into_dataframe] (docstore to dataframe),
    - the precision@k accumulator loop.

    Python values are modelled as the notebook has them: a [str] is a sequence
    of Unicode code points, a [dict] keeps insertion order, [None] is a value,
    numpy's float64 is the kernel's binary64, and an exception is an explicit
    outcome of a computation. What [np.array] and [pd.DataFrame] make of the
    values they are given is taken as a parameter. *)

From Stdlib Require Import ZArith NArith Ascii String List.
From Stdlib Require Import Floats.PrimFloat Uint63.
From stdpp Require Import base option list gmap strings pretty.

Set Default Proof Using "Type".
Local Open Scope N_scope.

(** ** Exceptions and results *)

Inductive exn :=
| ValueError
| KeyError
| TypeError
| IndexError
| OverflowError.

Inductive result (A : Type) :=
| Ok (a : A)
| Raise (e : exn).
Arguments Ok {A} a.
Arguments Raise {A} e.

#[global] Instance result_ret : MRet result := fun A a => Ok a.
#[global] Instance result_bind : MBind result := fun A B f m =>
  match m with
  | Ok a => f a
  | Raise e => Raise e
  end.

(** ** Python strings *)

(** A Python [str] is a sequence of Unicode code points. *)
Abbreviation str := (list N).

(** The code points of a literal written in ASCII. *)
Definition pystr (s : string) : str := N_of_ascii <$> list_ascii_of_string s.

(** The interpreter's Unicode database and integer-conversion limit are not
    part of the notebook; the builtins below take them from this record.
    [max_str_digits] is [sys.get_int_max_str_digits()], 0 when the limit is
    off or absent (CPython before 3.11). *)
Record interpreter := Interpreter {
  Py_UNICODE_ISSPACE : N -> bool;
  Py_UNICODE_TODECIMAL : N -> option N;
  max_str_digits : N;
}.

(** What every CPython fixes on the ASCII range: [str.isspace] holds of
    TAB..CR, FS..US and SPACE, and the decimal digits are '0'..'9'. *)
Definition ascii_isspace (c : N) : bool :=
  ((9 <=? c) && (c <=? 13)) || ((28 <=? c) && (c <=? 31)) || (c =? 32).

Definition ascii_todecimal (c : N) : option N :=
  if (48 <=? c) && (c <=? 57) then Some (c - 48) else None.

Definition conforms (py : interpreter) : Prop :=
  forall c, c < 128 -> Py_UNICODE_ISSPACE py c = ascii_isspace c.

(** A database that knows the ASCII range, the other White_Space code points
    and the fullwidth digits; enough to run the definitions. *)
Definition sample_isspace (c : N) : bool :=
  ascii_isspace c
  || (c =? 0x85) || (c =? 0xA0) || (c =? 0x1680)
  || ((0x2000 <=? c) && (c <=? 0x200A))
  || (c =? 0x2028) || (c =? 0x2029) || (c =? 0x202F) || (c =? 0x205F)
  || (c =? 0x3000).

Definition sample_todecimal (c : N) : option N :=
  if c <? 128 then ascii_todecimal c
  else if (0xFF10 <=? c) && (c <=? 0xFF19) then Some (c - 0xFF10)
  else None.

Definition sample_interpreter : interpreter :=
  Interpreter sample_isspace sample_todecimal 4300.

Section Builtins.
Context (py : interpreter).

(** [str.lstrip()], [str.rstrip()] and [str.strip()] without argument. *)
Fixpoint lstrip (s : str) : str :=
  match s with
  | c :: s' => if Py_UNICODE_ISSPACE py c then lstrip s' else s
  | [] => []
  end.

Definition rstrip (s : str) : str := reverse (lstrip (reverse s)).

Definition strip (s : str) : str := rstrip (lstrip s).

(** [int(s)] for a [str]: CPython first rewrites the string to ASCII
    ([_PyUnicode_TransformDecimalAndSpaceToASCII]): code points below 127
    stay, a Unicode space becomes ' ', a Unicode decimal digit becomes its
    ASCII digit, and anything else becomes '?' and ends the buffer. *)
Fixpoint transform_decimal_and_space (s : str) : list N :=
  match s with
  | [] => []
  | ch :: s' =>
      if ch <? 127 then ch :: transform_decimal_and_space s'
      else if Py_UNICODE_ISSPACE py ch then 32 :: transform_decimal_and_space s'
      else match Py_UNICODE_TODECIMAL py ch with
           | Some decimal => (48 + decimal) :: transform_decimal_and_space s'
           | None => [63]
           end
  end.

(** [Py_ISSPACE] of pyctype: TAB..CR and SPACE. *)
Definition Py_ISSPACE (c : N) : bool := ((9 <=? c) && (c <=? 13)) || (c =? 32).

Fixpoint skip_spaces (s : list N) : list N :=
  match s with
  | c :: s' => if Py_ISSPACE c then skip_spaces s' else s
  | [] => []
  end.

(** The digit scan of [PyLong_FromString] in base 10: digits and single
    underscores. [prev] is the previous character (0 at the start),
    [digits] the number of digits seen, [z] their value. The scan fails on
    a doubled underscore. *)
Fixpoint scan_digits (prev : N) (digits : N) (z : Z) (s : list N)
  : option (N * N * Z * list N) :=
  match s with
  | c :: s' =>
      if c =? 95 then
        if prev =? 95 then None else scan_digits c digits z s'
      else
        match ascii_todecimal c with
        | Some d => scan_digits c (digits + 1) (10 * z + Z.of_N d)%Z s'
        | None => Some (prev, digits, z, s)
        end
  | [] => Some (prev, digits, z, [])
  end.

(** The optional sign: '+' is 43, '-' is 45. *)
Definition take_sign (s : list N) : bool * list N :=
  match s with
  | c :: s' =>
      if c =? 43 then (false, s')
      else if c =? 45 then (true, s')
      else (false, s)
  | [] => (false, [])
  end.

Definition starts_with_underscore (s : list N) : bool :=
  match s with
  | c :: _ => c =? 95
  | [] => false
  end.

(** [PyLong_FromString(buffer, &end, 10)] followed by the check that the
    whole buffer was consumed: spaces, sign, digits, spaces. The digit
    limit is only looked at above 640 digits. *)
Definition PyLong_FromString (buffer : list N) : result Z :=
  let '(negative, s) := take_sign (skip_spaces buffer) in
  if starts_with_underscore s then Raise ValueError
  else
    match scan_digits 0 0 0%Z s with
    | None => Raise ValueError
    | Some (prev, digits, z, rest) =>
        if prev =? 95 then Raise ValueError
        else if (640 <? digits) && (0 <? max_str_digits py)
                && (max_str_digits py <? digits) then Raise ValueError
        else if digits =? 0 then Raise ValueError
        else match skip_spaces rest with
             | [] => Ok (if negative then (- z)%Z else z)
             | _ :: _ => Raise ValueError
             end
    end.

Definition int (s : str) : result Z :=
  PyLong_FromString (transform_decimal_and_space s).

End Builtins.

(** ** [process_binary_responses] *)

(** [d[k]] on a [Dict[int, str]]. *)
Definition dict_getitem (d : gmap Z str) (k : Z) : result str :=
  match d !! k with
  | Some v => Ok v
  | None => Raise KeyError
  end.

Section ProcessBinaryResponses.
Context (py : interpreter).

(** The body of the [for] loop up to the [append]: the [try] block and its
    [except (ValueError, KeyError)] handler. [None] is Python's [None]. *)
Definition processed_response (binary_to_string_map : gmap Z str)
    (binary_response : str) : result (option str) :=
  match
    binary_value ← int py (strip py binary_response);
    dict_getitem binary_to_string_map binary_value
  with
  | Ok processed => Ok (Some processed)
  | Raise ValueError | Raise KeyError => Ok None
  | Raise e => Raise e
  end.

Definition process_binary_responses (binary_responses : list str)
    (binary_to_string_map : gmap Z str) : result (list (option str)) :=
  foldl
    (fun acc binary_response =>
       processed_responses ← acc;
       processed ← processed_response binary_to_string_map binary_response;
       Ok (processed_responses ++ [processed]))
    (Ok []) binary_responses.

End ProcessBinaryResponses.

(** The map the notebook passes: [{0: "irrelevant", 1: "relevant"}]. *)
Definition relevance_map : gmap Z str :=
  <[1%Z := pystr "relevant"]> (<[0%Z := pystr "irrelevant"]> ∅).

(** ** Python values, as [json.load] and the dataframe cells have them *)

#[local] Set Warnings "-register-all".
Inductive value :=
| VNone
| VBool (b : bool)
| VInt (z : Z)
| VFloat (f : float)
| VStr (s : str)
| VList (l : list value)
| VDict (d : list (str * value)).
#[local] Set Warnings "register-all".

(** A [dict] with [str] keys keeps its items in insertion order; [d[k]] finds
    the item whose key is [k]. *)
Fixpoint assoc (k : str) (d : list (str * value)) : option value :=
  match d with
  | [] => None
  | (k', v) :: d' => if bool_decide (k' = k) then Some v else assoc k d'
  end.

(** [seq[i]] for a Python [int] index: a negative index counts from the end. *)
Definition sequence_index {A} (l : list A) (i : Z) : result A :=
  let n := Z.of_nat (length l) in
  let j := (if i <? 0 then i + n else i)%Z in
  if ((0 <=? j) && (j <? n))%Z then
    match l !! Z.to_nat j with
    | Some x => Ok x
    | None => Raise IndexError
    end
  else Raise IndexError.

(** [container[key]]. The keys of a dict loaded from JSON are all [str], so
    another hashable key is missing and an unhashable one is a [TypeError]. *)
Definition getitem (container key : value) : result value :=
  match container, key with
  | VDict d, VStr k =>
      match assoc k d with
      | Some v => Ok v
      | None => Raise KeyError
      end
  | VDict _, (VList _ | VDict _) => Raise TypeError
  | VDict _, _ => Raise KeyError
  | VList l, VInt i => sequence_index l i
  | VList l, VBool b => sequence_index l (if b then 1 else 0)%Z
  | VStr s, VInt i => c ← sequence_index s i; Ok (VStr [c])
  | VStr s, VBool b => c ← sequence_index s (if b then 1 else 0)%Z; Ok (VStr [c])
  | _, _ => Raise TypeError
  end.

(** The items a [for] loop over the value visits: the keys of a dict, the
    elements of a list, the characters of a string. *)
Definition iterate (v : value) : result (list value) :=
  match v with
  | VDict d => Ok ((fun kv => VStr kv.1) <$> d)
  | VList l => Ok l
  | VStr s => Ok ((fun c => VStr [c]) <$> s)
  | _ => Raise TypeError
  end.

(** ** Dataframes *)

(** A dataframe on the default index 0..[nrows]-1: its columns by name. *)
Record DataFrame := {
  nrows : nat;
  columns : gmap str (list value);
}.

(** Every column of a dataframe has one cell per row. *)
Definition well_formed (df : DataFrame) : Prop :=
  forall name (column : list value),
    columns df !! name = Some column -> length column = nrows df.

(** pandas is not part of the notebook. When it builds a column from a list
    it infers one dtype from all the cells and stores each cell converted to
    it: the list [[None, 7]] becomes the float64 column [[nan, 7.0]], a list
    of strings stays as it is. It may also refuse a cell: where the
    inference converts every int to a float, an int that no float can hold
    raises [OverflowError]. Which dtype it infers, and what a cell becomes in
    it, depends on the version of pandas; both are parameters. *)
Record pandas := {
  dtype : Type;
  infer_dtype : list value -> dtype;
  astype : dtype -> value -> result value;
}.

(** The column pandas stores for a list of cells: one cell for each, in the
    order of the list, converted to the dtype inferred for the whole list. *)
Definition sanitize_array (pd : pandas) (cells : list value)
  : result (list value) :=
  mapM (astype pd (infer_dtype pd cells)) cells.

(** [pd.DataFrame(data)] from a dict of lists, given as its items (the names
    are distinct): the lists must have one length, and each becomes a column
    of its own dtype, in the order of the dict. *)
Definition pd_DataFrame (pd : pandas) (data : list (str * list value))
  : result DataFrame :=
  match data with
  | [] => Ok {| nrows := 0; columns := ∅ |}
  | (_, c) :: _ =>
      if forallb (fun kc => Nat.eqb (length kc.2) (length c)) data
      then
        arrays ← mapM (fun kc => column ← sanitize_array pd kc.2;
                                 Ok (kc.1, column)) data;
        Ok {| nrows := length c; columns := list_to_map arrays |}
      else Raise ValueError
  end.

(** [df[name]]. *)
Definition df_getitem (df : DataFrame) (name : str) : result (list value) :=
  match columns df !! name with
  | Some column => Ok column
  | None => Raise KeyError
  end.

(** [df[name] = pd.Series(values)]: the series is aligned on the index of
    the dataframe, rows beyond its end become NaN. *)
Definition df_setitem_series (df : DataFrame) (name : str) (values : list value)
  : DataFrame :=
  {| nrows := nrows df;
     columns :=
       <[name := take (nrows df)
                   (values ++ replicate (nrows df - length values) (VFloat nan))]>
         (columns df) |}.

(** ** [load_llama_index_database_into_dataframe] *)

Section Loader.
Context (pd : pandas).
(** [np.array(v)]: numpy is not part of the notebook. The conversion may
    reject its argument (a ragged list raises [ValueError] in recent
    versions), so it is a parameter with a [result]. *)
Context (np_array : value -> result value).

(** The two right-hand sides of the loop body. *)
Definition document_text (docstore doc_id : value) : result value :=
  data ← getitem docstore (VStr (pystr "docstore/data"));
  document ← getitem data doc_id;
  fields ← getitem document (VStr (pystr "__data__"));
  getitem fields (VStr (pystr "text")).

Definition document_embedding (vector_store doc_id : value) : result value :=
  embedding_dict ← getitem vector_store (VStr (pystr "embedding_dict"));
  embedding ← getitem embedding_dict doc_id;
  np_array embedding.

(** One iteration: both [append]s, in the order of the source. *)
Definition loader_step (docstore vector_store : value)
    (lists : list value * list value) (doc_id : value)
  : result (list value * list value) :=
  let '(text_list, embeddings_list) := lists in
  text ← document_text docstore doc_id;
  let text_list := text_list ++ [text] in
  embedding ← document_embedding vector_store doc_id;
  let embeddings_list := embeddings_list ++ [embedding] in
  Ok (text_list, embeddings_list).

Definition loader_loop (docstore vector_store : value) (doc_ids : list value)
  : result (list value * list value) :=
  foldl (fun acc doc_id => lists ← acc; loader_step docstore vector_store lists doc_id)
        (Ok ([], [])) doc_ids.

Definition load_llama_index_database_into_dataframe
    (docstore vector_store : value) : result DataFrame :=
  data ← getitem docstore (VStr (pystr "docstore/data"));
  doc_ids ← iterate data;
  lists ← loader_loop docstore vector_store doc_ids;
  pd_DataFrame pd [(pystr "text", lists.1); (pystr "text_vector", lists.2)].

End Loader.

(** ** The precision@k cell *)

(** [range(start, stop)]. *)
Definition range (start stop : Z) : list Z :=
  (fun i => (start + Z.of_nat i)%Z) <$> seq 0 (Z.to_nat (stop - start)).

(** [f"{i}"] for an [int]. *)
Definition format_int (i : Z) : str := pystr (pretty i).

(** An int64 as a float64. *)
Definition float_of_int (z : Z) : float :=
  if (z <? 0)%Z then (- of_uint63 (Uint63.of_Z (- z)))%float
  else of_uint63 (Uint63.of_Z z).

(** [int(x == "relevant")] on a cell: only a [str] equals a [str]. *)
Definition eq_str (x : value) (s : str) : bool :=
  match x with
  | VStr t => bool_decide (t = s)
  | _ => false
  end.

Definition int_of_bool (b : bool) : Z := if b then 1%Z else 0%Z.

Definition is_relevant (x : value) : Z := int_of_bool (eq_str x (pystr "relevant")).

(** [np.zeros(n)]. *)
Definition np_zeros (n : nat) : list float := replicate n 0%float.

(** [a += b] for a float64 array [a] and an int64 array [b] of one dimension:
    the shapes agree, or [b] has one element that is added everywhere. *)
Definition ndarray_iadd (a : list float) (b : list Z) : result (list float) :=
  if Nat.eqb (length a) (length b) then
    Ok (zip_with (fun x y => (x + float_of_int y)%float) a b)
  else
    match b with
    | [y] => Ok ((fun x => (x + float_of_int y)%float) <$> a)
    | _ => Raise ValueError
    end.

(** [a / k] for a float64 array and a Python [int]: a new array. *)
Definition ndarray_truediv (a : list float) (k : Z) : list float :=
  (fun x => (x / float_of_int k)%float) <$> a.

(** The variables the cell reads and writes. [num_retrieved_documents] is the
    global of the evaluation cell, which the loop body assigns again. *)
Record cell_state := {
  num_retrieved_documents : Z;
  num_relevant_documents_array : list float;
  query_df : DataFrame;
}.

(** The body of the [for] loop. The arrays of the model carry no dtype. On a
    column with at least one row the mapped series holds Python [int]s and
    becomes an int64 array; on a column without rows pandas keeps the dtype of
    the column, and whether [+=] then accepts the array depends on that dtype,
    which is why the statements about the cell take a dataframe that has a
    row. *)
Definition precision_step (retrieved_context_index : Z) (st : cell_state)
  : result cell_state :=
  let num_retrieved_documents := (retrieved_context_index + 1)%Z in
  column ← df_getitem (query_df st)
             (pystr "openai_relevance_" ++ format_int retrieved_context_index);
  array ← ndarray_iadd (num_relevant_documents_array st) (is_relevant <$> column);
  Ok {| num_retrieved_documents := num_retrieved_documents;
        num_relevant_documents_array := array;
        query_df :=
          df_setitem_series (query_df st)
            (pystr "openai_precision@" ++ format_int num_retrieved_documents)
            (VFloat <$> ndarray_truediv array num_retrieved_documents) |}.

(** The cell: the range is evaluated once, from the value the global has on
    entry, before the body assigns it. *)
Definition precision_cell (num_retrieved_documents0 : Z) (df : DataFrame)
  : result cell_state :=
  foldl (fun acc retrieved_context_index =>
           st ← acc; precision_step retrieved_context_index st)
        (Ok {| num_retrieved_documents := num_retrieved_documents0;
               num_relevant_documents_array := np_zeros (nrows df);
               query_df := df |})
        (range 0 num_retrieved_documents0).

(** ** Vocabulary of the statements *)

(** [s] is [core] with whitespace, as [str.isspace] knows it, on both sides. *)
Definition surrounded_by_whitespace (py : interpreter) (core s : str) : Prop :=
  exists l r, s = l ++ core ++ r
    /\ Forall (fun c => Py_UNICODE_ISSPACE py c = true) l
    /\ Forall (fun c => Py_UNICODE_ISSPACE py c = true) r.

(** The reading of the parser that takes only the literals "0" and "1",
    possibly between whitespace, to a label and everything else to [None]. *)
Definition only_binary_literals_labelled (py : interpreter) : Prop :=
  forall s,
    (surrounded_by_whitespace py (pystr "0") s ->
     process_binary_responses py [s] relevance_map = Ok [Some (pystr "irrelevant")])
    /\ (surrounded_by_whitespace py (pystr "1") s ->
        process_binary_responses py [s] relevance_map = Ok [Some (pystr "relevant")])
    /\ (~ surrounded_by_whitespace py (pystr "0") s ->
        ~ surrounded_by_whitespace py (pystr "1") s ->
        process_binary_responses py [s] relevance_map = Ok [None]).

(** What one response becomes: the entry of the map under the parsed
    integer, [None] when there is no integer or no entry. *)
Definition parsed_label (py : interpreter) (m : gmap Z str) (s : str) : option str :=
  match int py (strip py s) with
  | Ok v => m !! v
  | Raise _ => None
  end.

(** The label of a parse result under [{0: "irrelevant", 1: "relevant"}]. *)
Definition binary_label (parsed : result Z) : option str :=
  match parsed with
  | Ok v =>
      if (v =? 0)%Z then Some (pystr "irrelevant")
      else if (v =? 1)%Z then Some (pystr "relevant")
      else None
  | Raise _ => None
  end.

(** The database restricted to ASCII, to evaluate strings written in ASCII. *)
Definition ascii_interpreter : interpreter :=
  Interpreter ascii_isspace (fun _ => None) 0.

(** The running counts after one more relevance column has been added. *)
Definition counts_after (a : list float) (column : list value) : list float :=
  zip_with (fun x y => (x + float_of_int y)%float) a (is_relevant <$> column).

(** precision@k in the words of the tutorial: the relevant ones among the
    first [k] labels of a row, over [k]. *)
Definition count_relevant (labels : list value) : nat :=
  length (List.filter (fun x => eq_str x (pystr "relevant")) labels).

Definition precision_at_spec (k : nat) (labels : list value) : float :=
  (float_of_int (Z.of_nat (count_relevant (take k labels)))
   / float_of_int (Z.of_nat k))%float.

(** A label that could not be parsed, read as "irrelevant". *)
Definition as_irrelevant (x : value) : value :=
  match x with
  | VNone => VStr (pystr "irrelevant")
  | _ => x
  end.

Definition with_relevance (df : DataFrame) (c0 c1 : list value) : DataFrame :=
  {| nrows := nrows df;
     columns := <[pystr "openai_relevance_1" := c1]>
                  (<[pystr "openai_relevance_0" := c0]> (columns df)) |}.

(** A dataframe with the two relevance columns and nothing else. *)
Definition relevance_frame (c0 c1 : list value) : DataFrame :=
  with_relevance {| nrows := length c0; columns := ∅ |} c0 c1.

(** The two precision columns of the state a run of the cell ends in. *)
Definition precision_columns (r : result cell_state)
  : option (list value * list value) :=
  match r with
  | Ok st =>
      p1 ← columns (query_df st) !! pystr "openai_precision@1";
      p2 ← columns (query_df st) !! pystr "openai_precision@2";
      Some (p1, p2)
  | Raise _ => None
  end.

(** A persisted index with two documents, the embeddings stored in the
    other order. *)
Definition sample_docstore : value :=
  VDict [(pystr "docstore/data",
          VDict [(pystr "a", VDict [(pystr "__data__",
                    VDict [(pystr "text", VStr (pystr "hello"))])]);
                 (pystr "b", VDict [(pystr "__data__",
                    VDict [(pystr "text", VStr (pystr "world"))])])])].

Definition sample_vector_store : value :=
  VDict [(pystr "embedding_dict",
          VDict [(pystr "b", VList [VFloat 1; VFloat 2]);
                 (pystr "a", VList [VFloat 3; VFloat 4])])].

(** A pandas for the examples, after pandas 2 on the values [json.load]
    gives, ints taken below 2^63 in absolute value: a column of numbers with
    a float or a [None] among them is float64, where an int becomes a float
    and [None] becomes NaN; any other column keeps its cells. *)
Inductive sample_dtype := float64 | object.

Definition is_number (x : value) : bool :=
  match x with
  | VInt z => (Z.abs z <? 2 ^ 63)%Z
  | VFloat _ => true
  | _ => false
  end.

Definition is_missing_or_float (x : value) : bool :=
  match x with
  | VNone | VFloat _ => true
  | _ => false
  end.

Definition sample_infer_dtype (cells : list value) : sample_dtype :=
  if forallb (fun x => is_number x || is_missing_or_float x) cells
     && existsb is_number cells && existsb is_missing_or_float cells
  then float64 else object.

Definition sample_astype (dt : sample_dtype) (x : value) : result value :=
  match dt, x with
  | float64, VInt z => Ok (VFloat (float_of_int z))
  | float64, VNone => Ok (VFloat nan)
  | _, _ => Ok x
  end.

Definition sample_pandas : pandas :=
  {| dtype := sample_dtype;
     infer_dtype := sample_infer_dtype;
     astype := sample_astype |}.

(** A persisted index whose texts are [null] and [7]. *)
Definition mixed_docstore : value :=
  VDict [(pystr "docstore/data",
          VDict [(pystr "a", VDict [(pystr "__data__",
                    VDict [(pystr "text", VNone)])]);
                 (pystr "b", VDict [(pystr "__data__",
                    VDict [(pystr "text", VInt 7)])])])].

(** ** The evaluation cell *)

(** [df[name] = values] for a Python list: the list must have one value per
    row. A dataframe without rows takes its index from a list that is not
    empty, and its other columns are filled with NaN. *)
Definition df_setitem_list (df : DataFrame) (name : str) (values : list value)
  : result DataFrame :=
  if Nat.eqb (nrows df) 0 && negb (Nat.eqb (length values) 0) then
    Ok {| nrows := length values;
          columns :=
            <[name := values]>
              ((fun _ => replicate (length values) (VFloat nan)) <$> columns df) |}
  else if Nat.eqb (length values) (nrows df) then
    Ok {| nrows := nrows df; columns := <[name := values]> (columns df) |}
  else Raise ValueError.

(** [df.head(n).copy()]. *)
Definition df_head (n : nat) (df : DataFrame) : DataFrame :=
  {| nrows := Nat.min n (nrows df); columns := take n <$> columns df |}.

(** [row[name]] for the row at position [i], as [iterrows] yields it. *)
Definition row_getitem (df : DataFrame) (i : nat) (name : str) : result value :=
  column ← df_getitem df name;
  match column !! i with
  | Some x => Ok x
  | None => Raise IndexError
  end.

(** A list or a dict cannot be the key of a dict. *)
Definition hashable (k : value) : bool :=
  match k with
  | VList _ | VDict _ => false
  | _ => true
  end.

(** A processed response as a cell. *)
Definition cell_of_label (label : option str) : value :=
  match label with
  | Some s => VStr s
  | None => VNone
  end.

(** [evaluation_model_name]. *)
Definition evaluation_model_name : str := pystr "gpt-3.5-turbo".

Section Evaluation.
Context (py : interpreter).

(** [evaluate_query_and_retrieved_context] calls the chat-completion API
    under a retry decorator; neither is part of the notebook. The call is a
    parameter that reads and changes the state of the world outside. *)
Context {World : Type}.
Context (evaluate_query_and_retrieved_context :
           value -> value -> str -> World -> result str * World).

(** [k1 == k2] for two hashable cells, as a dict compares its keys. *)
Context (key_eqb : value -> value -> bool).

(** [d[k] = v] on a dict with any hashable keys: the item of an equal key
    keeps its key and its place and takes the value, a new key goes last. *)
Fixpoint dict_setitem (d : list (value * value)) (k v : value)
  : list (value * value) :=
  match d with
  | [] => [(k, v)]
  | (k', v') :: d' =>
      if key_eqb k' k then (k', v) :: d'
      else (k', v') :: dict_setitem d' k v
  end.

(** The dict comprehension over [sample_query_df.iterrows()]: key, then
    value, then the insertion. *)
Definition retrievals_data_step (df : DataFrame) (context_index : Z)
    (acc : result (list (value * value))) (i : nat)
  : result (list (value * value)) :=
  retrievals_data ← acc;
  k ← row_getitem df i (pystr "text");
  v ← row_getitem df i (pystr "context_text_" ++ format_int context_index);
  if hashable k then Ok (dict_setitem retrievals_data k v) else Raise TypeError.

Definition retrievals_data_of (df : DataFrame) (context_index : Z)
  : result (list (value * value)) :=
  foldl (retrievals_data_step df context_index) (Ok []) (seq 0 (nrows df)).

(** One turn of the loop of [evaluate_retrievals]; an exception of the call
    leaves the loop and the function. *)
Definition evaluate_retrievals_step (model_name : str)
    (acc : result (list str) * World) (item : value * value)
  : result (list str) * World :=
  match acc with
  | (Ok responses, w) =>
      match evaluate_query_and_retrieved_context item.1 item.2 model_name w with
      | (Ok response, w') => (Ok (responses ++ [response]), w')
      | (Raise e, w') => (Raise e, w')
      end
  | (Raise e, w) => (Raise e, w)
  end.

Definition evaluate_retrievals (retrievals_data : list (value * value))
    (model_name : str) (w : World) : result (list str) * World :=
  foldl (evaluate_retrievals_step model_name) (Ok [], w) retrievals_data.

(** The body of the loop over [context_index]. *)
Definition evaluation_step (context_index : Z) (sample_query_df : DataFrame)
    (w : World) : result DataFrame * World :=
  match retrievals_data_of sample_query_df context_index with
  | Raise e => (Raise e, w)
  | Ok retrievals_data =>
      match evaluate_retrievals retrievals_data evaluation_model_name w with
      | (Raise e, w') => (Raise e, w')
      | (Ok raw_responses, w') =>
          (processed_responses ←
             process_binary_responses py raw_responses relevance_map;
           df_setitem_list sample_query_df
             (pystr "openai_relevance_" ++ format_int context_index)
             (cell_of_label <$> processed_responses),
           w')
      end
  end.

(** The cell: the first ten rows, then one turn per retrieved document. *)
Definition evaluation_cell (num_retrieved_documents0 : Z) (query_df0 : DataFrame)
    (w : World) : result DataFrame * World :=
  foldl (fun acc context_index =>
           match acc with
           | (Ok sample_query_df, w) => evaluation_step context_index sample_query_df w
           | (Raise e, w) => (Raise e, w)
           end)
        (Ok (df_head 10 query_df0), w)
        (range 0 num_retrieved_documents0).

End Evaluation.

(** ** Vocabulary of the further statements *)

(** The characters of a numeral: an optional sign ([Some true] is '-',
    [Some false] is '+') and ASCII digits, given by their values. *)
Definition sign_chars (sign : option bool) : str :=
  match sign with
  | None => []
  | Some false => [43]
  | Some true => [45]
  end.

Definition digit_chars (ds : list N) : str := (fun d => 48 + d) <$> ds.

Definition numeral (sign : option bool) (ds : list N) : str :=
  sign_chars sign ++ digit_chars ds.

Definition decimal_value (z : Z) (ds : list N) : Z :=
  foldl (fun z d => (10 * z + Z.of_N d)%Z) z ds.

Definition signed_value (sign : option bool) (ds : list N) : Z :=
  match sign with
  | Some true => (- decimal_value 0 ds)%Z
  | _ => decimal_value 0 ds
  end.

(** The empty dataframe the loader builds from no document. *)
Definition empty_database : DataFrame :=
  {| nrows := 0;
     columns := <[pystr "text" := []]> (<[pystr "text_vector" := []]> ∅) |}.

(** A state of the world for the examples: the answers still to come, one
    per call, [None] for a call that fails. *)
Definition scripted_call (query context : value) (model_name : str)
    (answers : list (option str)) : result str * list (option str) :=
  match answers with
  | Some answer :: answers' => (Ok answer, answers')
  | None :: answers' => (Raise ValueError, answers')
  | [] => (Raise ValueError, [])
  end.

(** Equality of keys for the examples: that of strings. *)
Definition str_key_eqb (k1 k2 : value) : bool :=
  match k1, k2 with
  | VStr s, VStr t => bool_decide (s = t)
  | VNone, VNone => true
  | _, _ => false
  end.

(** A sample of queries with their two retrieved contexts. *)
Definition sample_queries (texts contexts0 contexts1 : list str) : DataFrame :=
  {| nrows := length texts;
     columns := <[pystr "text" := VStr <$> texts]>
                  (<[pystr "context_text_0" := VStr <$> contexts0]>
                     (<[pystr "context_text_1" := VStr <$> contexts1]> ∅)) |}.

(** The dict that a run of insertions builds, and whether it has a key. *)
Definition dict_of_items (key_eqb : value -> value -> bool)
    (items : list (value * value)) : list (value * value) :=
  foldl (fun d item => dict_setitem key_eqb d item.1 item.2) [] items.

Definition has_key (key_eqb : value -> value -> bool)
    (d : list (value * value)) (k : value) : bool :=
  existsb (fun item => key_eqb item.1 k) d.

(** An interpreter with the digit limit at its lowest setting. *)
Definition strict_interpreter : interpreter :=
  Interpreter sample_isspace sample_todecimal 640.

(** * Properties *)

(** ** The builtins *)

Lemma sample_interpreter_conforms : conforms sample_interpreter.
Proof.
  intros c Hc. cbn [sample_interpreter Py_UNICODE_ISSPACE]. unfold sample_isspace.
  replace (c =? 0x85) with false by (symmetry; apply N.eqb_neq; lia).
  replace (c =? 0xA0) with false by (symmetry; apply N.eqb_neq; lia).
  replace (c =? 0x1680) with false by (symmetry; apply N.eqb_neq; lia).
  replace (0x2000 <=? c) with false by (symmetry; apply N.leb_gt; lia).
  replace (c =? 0x2028) with false by (symmetry; apply N.eqb_neq; lia).
  replace (c =? 0x2029) with false by (symmetry; apply N.eqb_neq; lia).
  replace (c =? 0x202F) with false by (symmetry; apply N.eqb_neq; lia).
  replace (c =? 0x205F) with false by (symmetry; apply N.eqb_neq; lia).
  replace (c =? 0x3000) with false by (symmetry; apply N.eqb_neq; lia).
  by rewrite !orb_false_r.
Qed.

Section BuiltinFacts.
Context (py : interpreter).

(** [int] raises nothing but [ValueError]. *)
Lemma PyLong_FromString_raises buffer e :
  PyLong_FromString py buffer = Raise e -> e = ValueError.
Proof. unfold PyLong_FromString. repeat case_match; congruence. Qed.

Lemma int_raises s e : int py s = Raise e -> e = ValueError.
Proof. apply PyLong_FromString_raises. Qed.

Lemma lstrip_spaces_app l s :
  Forall (fun c => Py_UNICODE_ISSPACE py c = true) l ->
  lstrip py (l ++ s) = lstrip py s.
Proof. induction 1 as [|c l Hc _ IH]; [done|]. cbn. by rewrite Hc. Qed.

Lemma lstrip_nonspace c s :
  Py_UNICODE_ISSPACE py c = false -> lstrip py (c :: s) = c :: s.
Proof. intros Hc. cbn. by rewrite Hc. Qed.

Lemma strip_padded l c r :
  Forall (fun c => Py_UNICODE_ISSPACE py c = true) l ->
  Forall (fun c => Py_UNICODE_ISSPACE py c = true) r ->
  Py_UNICODE_ISSPACE py c = false ->
  strip py (l ++ [c] ++ r) = [c].
Proof.
  intros Hl Hr Hc. unfold strip, rstrip. change ([c] ++ r) with (c :: r).
  rewrite lstrip_spaces_app, lstrip_nonspace by done.
  rewrite reverse_cons, lstrip_spaces_app by by apply Forall_reverse.
  by rewrite lstrip_nonspace.
Qed.

Lemma lstrip_ext py' s :
  Forall (fun c => Py_UNICODE_ISSPACE py c = Py_UNICODE_ISSPACE py' c) s ->
  lstrip py s = lstrip py' s.
Proof. induction 1 as [|c s Hc _ IH]; [done|]. cbn. by rewrite Hc, IH. Qed.

Lemma Forall_lstrip (P : N -> Prop) s :
  Forall P s -> Forall P (lstrip py s).
Proof.
  induction 1 as [|c s Hc Hs IH]; [done|]. cbn. case_match; [done|].
  by constructor.
Qed.

End BuiltinFacts.

(** On a string of ASCII characters every conforming interpreter strips
    alike. *)
Lemma strip_ascii py s :
  conforms py -> Forall (fun c => c < 128) s ->
  strip py s = strip ascii_interpreter s.
Proof.
  intros Hpy Hs. unfold strip, rstrip.
  assert (Hext : forall t, Forall (fun c => c < 128) t ->
            lstrip py t = lstrip ascii_interpreter t).
  { intros t Ht. apply lstrip_ext. eapply Forall_impl; [exact Ht|].
    intros c Hc. by apply Hpy. }
  rewrite (Hext s Hs). rewrite Hext; [done|].
  by apply Forall_reverse, Forall_lstrip.
Qed.

Lemma strip_surrounded py c s :
  surrounded_by_whitespace py [c] s -> Py_UNICODE_ISSPACE py c = false ->
  strip py s = [c].
Proof. intros (l & r & -> & Hl & Hr) Hc. by apply strip_padded. Qed.

(** ** [process_binary_responses] *)

Section Responses.
Context (py : interpreter).

Lemma processed_response_spec m s :
  processed_response py m s = Ok (parsed_label py m s).
Proof.
  unfold processed_response, parsed_label.
  destruct (int py (strip py s)) as [v|e] eqn:Hint; cbn.
  - unfold dict_getitem. by destruct (m !! v).
  - by rewrite (int_raises _ _ _ Hint).
Qed.

(** The loop invariant: the accumulator grows by one label per response. *)
Lemma process_binary_responses_from acc m rs :
  foldl (fun acc binary_response =>
           processed_responses ← acc;
           processed ← processed_response py m binary_response;
           Ok (processed_responses ++ [processed]))
        (Ok acc) rs
  = Ok (acc ++ (parsed_label py m <$> rs)).
Proof.
  revert acc. induction rs as [|s rs IH]; intros acc; cbn.
  - by rewrite app_nil_r.
  - rewrite processed_response_spec. cbn. rewrite IH.
    by rewrite <- app_assoc.
Qed.

Lemma process_binary_responses_fmap rs m :
  process_binary_responses py rs m = Ok (parsed_label py m <$> rs).
Proof. apply (process_binary_responses_from []). Qed.

Lemma parsed_label_relevance s :
  parsed_label py relevance_map s = binary_label (int py (strip py s)).
Proof.
  unfold parsed_label, binary_label, relevance_map.
  destruct (int py (strip py s)) as [v|e]; [|done].
  destruct (Z.eqb_spec v 0) as [->|H0]; [done|].
  destruct (Z.eqb_spec v 1) as [->|H1]; [done|].
  by rewrite !lookup_insert_ne, lookup_empty by done.
Qed.

End Responses.

(** Runs a response written in ASCII on any conforming interpreter. *)
Ltac ascii_response Hpy :=
  rewrite process_binary_responses_fmap; cbn [fmap list_fmap];
  unfold parsed_label;
  rewrite (strip_ascii _ _ Hpy) by (vm_compute; repeat constructor);
  reflexivity.

(** "01" is neither "0" nor "1" between whitespace, and is labelled all the
    same, on every conforming interpreter. *)
Lemma leading_zero_labelled py :
  conforms py ->
  ~ surrounded_by_whitespace py (pystr "0") (pystr "01")
  /\ ~ surrounded_by_whitespace py (pystr "1") (pystr "01")
  /\ process_binary_responses py [pystr "01"] relevance_map
     = Ok [Some (pystr "relevant")].
Proof.
  intros Hpy.
  assert (Hstrip : strip py (pystr "01") = pystr "01").
  { rewrite (strip_ascii _ _ Hpy) by (vm_compute; repeat constructor). reflexivity. }
  repeat split.
  - intros H. apply strip_surrounded in H; [|by rewrite Hpy]. by rewrite Hstrip in H.
  - intros H. apply strip_surrounded in H; [|by rewrite Hpy]. by rewrite Hstrip in H.
  - ascii_response Hpy.
Qed.

(** C1, as the specification words it, fails: it promises [None] for every
    input other than "0" or "1" between whitespace, and "01" is such an
    input that [process_binary_responses] labels "relevant". *)
Lemma binary_literal_only_counterexample :
  (~ surrounded_by_whitespace sample_interpreter (pystr "0") (pystr "01")
   /\ ~ surrounded_by_whitespace sample_interpreter (pystr "1") (pystr "01")
   /\ process_binary_responses sample_interpreter [pystr "01"] relevance_map
      = Ok [Some (pystr "relevant")])
  /\ ~ only_binary_literals_labelled sample_interpreter.
Proof.
  pose proof (leading_zero_labelled _ sample_interpreter_conforms) as H.
  split; [exact H|].
  destruct H as (H0 & H1 & Hrun). intros Hclaim.
  destruct (Hclaim (pystr "01")) as (_ & _ & Hnone).
  specialize (Hnone H0 H1). rewrite Hrun in Hnone. discriminate Hnone.
Qed.

(** C1, amended: under [{0: "irrelevant", 1: "relevant"}] the function
    returns, response by response, the label of the integer that [int] reads
    in the stripped response when that integer is 0 or 1, and [None] for
    every other response. "0" and "1" between whitespace are read as 0 and
    1; " 1 " gives "relevant", "yes" and the empty string give [None]. *)
Theorem binary_responses_labelled (py : interpreter) :
  conforms py ->
  (forall rs, exists out,
      process_binary_responses py rs relevance_map = Ok out
      /\ length out = length rs
      /\ forall i s, rs !! i = Some s ->
           out !! i = Some (binary_label (int py (strip py s))))
  /\ (forall s, surrounded_by_whitespace py (pystr "0") s ->
        process_binary_responses py [s] relevance_map
        = Ok [Some (pystr "irrelevant")])
  /\ (forall s, surrounded_by_whitespace py (pystr "1") s ->
        process_binary_responses py [s] relevance_map
        = Ok [Some (pystr "relevant")])
  /\ process_binary_responses py [pystr " 1 "] relevance_map
     = Ok [Some (pystr "relevant")]
  /\ process_binary_responses py [pystr "yes"] relevance_map = Ok [None]
  /\ process_binary_responses py [pystr ""] relevance_map = Ok [None].
Proof.
  intros Hpy. split; [|split; [|split; [|split; [|split]]]].
  - intros rs. exists (parsed_label py relevance_map <$> rs).
    split; [apply process_binary_responses_fmap|].
    split; [apply length_fmap|].
    intros i s Hs. by rewrite list_lookup_fmap, Hs, <- parsed_label_relevance.
  - intros s Hs. rewrite process_binary_responses_fmap. cbn [fmap list_fmap].
    unfold parsed_label. by rewrite (strip_surrounded py 48 s Hs) by by rewrite Hpy.
  - intros s Hs. rewrite process_binary_responses_fmap. cbn [fmap list_fmap].
    unfold parsed_label. by rewrite (strip_surrounded py 49 s Hs) by by rewrite Hpy.
  - ascii_response Hpy.
  - ascii_response Hpy.
  - ascii_response Hpy.
Qed.

Lemma binary_responses_labelled_witness :
  (forall rs, exists out,
      process_binary_responses sample_interpreter rs relevance_map = Ok out
      /\ length out = length rs
      /\ forall i s, rs !! i = Some s ->
           out !! i = Some (binary_label
                              (int sample_interpreter (strip sample_interpreter s))))
  /\ (forall s, surrounded_by_whitespace sample_interpreter (pystr "0") s ->
        process_binary_responses sample_interpreter [s] relevance_map
        = Ok [Some (pystr "irrelevant")])
  /\ (forall s, surrounded_by_whitespace sample_interpreter (pystr "1") s ->
        process_binary_responses sample_interpreter [s] relevance_map
        = Ok [Some (pystr "relevant")])
  /\ process_binary_responses sample_interpreter [pystr " 1 "] relevance_map
     = Ok [Some (pystr "relevant")]
  /\ process_binary_responses sample_interpreter [pystr "yes"] relevance_map
     = Ok [None]
  /\ process_binary_responses sample_interpreter [pystr ""] relevance_map
     = Ok [None].
Proof.
  exact (binary_responses_labelled sample_interpreter sample_interpreter_conforms).
Defined.

(** C7: for every list of responses and every map the function returns a
    list of the same length, whose element at index [i] is what the function
    returns for the response at index [i] alone. *)
Theorem process_binary_responses_elementwise
    (py : interpreter) (rs : list str) (m : gmap Z str) :
  exists out,
    process_binary_responses py rs m = Ok out
    /\ length out = length rs
    /\ forall i s, rs !! i = Some s ->
         exists o, out !! i = Some o
           /\ process_binary_responses py [s] m = Ok [o].
Proof.
  exists (parsed_label py m <$> rs).
  split; [apply process_binary_responses_fmap|].
  split; [apply length_fmap|].
  intros i s Hs. exists (parsed_label py m s).
  split; [by rewrite list_lookup_fmap, Hs|].
  apply process_binary_responses_fmap.
Qed.

(** C8: a response whose stripped content [int] accepts is mapped to the
    entry of the map under its value, so a value of 0 or 1 gives its label
    whatever the numeral looks like ("+1", "01" and "1" followed by a line
    feed give "relevant"); [None] is returned exactly when [int] raises or
    the value is not a key of the map. *)
Theorem noncanonical_numerals_labelled (py : interpreter) :
  conforms py ->
  (forall m s v, int py (strip py s) = Ok v ->
     process_binary_responses py [s] m = Ok [m !! v])
  /\ (forall s, int py (strip py s) = Ok 0%Z ->
        process_binary_responses py [s] relevance_map
        = Ok [Some (pystr "irrelevant")])
  /\ (forall s, int py (strip py s) = Ok 1%Z ->
        process_binary_responses py [s] relevance_map
        = Ok [Some (pystr "relevant")])
  /\ (forall m s,
        process_binary_responses py [s] m = Ok [None]
        <-> int py (strip py s) = Raise ValueError
            \/ exists v, int py (strip py s) = Ok v /\ m !! v = None)
  /\ process_binary_responses py [pystr "+1"] relevance_map
     = Ok [Some (pystr "relevant")]
  /\ process_binary_responses py [pystr "01"] relevance_map
     = Ok [Some (pystr "relevant")]
  /\ process_binary_responses py [pystr "1" ++ [10]] relevance_map
     = Ok [Some (pystr "relevant")].
Proof.
  intros Hpy. split; [|split; [|split; [|split; [|split; [|split]]]]].
  - intros m s v Hv. rewrite process_binary_responses_fmap. cbn [fmap list_fmap].
    unfold parsed_label. by rewrite Hv.
  - intros s Hv. rewrite process_binary_responses_fmap. cbn [fmap list_fmap].
    by rewrite parsed_label_relevance, Hv.
  - intros s Hv. rewrite process_binary_responses_fmap. cbn [fmap list_fmap].
    by rewrite parsed_label_relevance, Hv.
  - intros m s. rewrite process_binary_responses_fmap. cbn [fmap list_fmap].
    unfold parsed_label.
    destruct (int py (strip py s)) as [v|e] eqn:Hint.
    + split.
      * intros [= Hv]. right. by exists v.
      * intros [?|(v' & [= <-] & Hv)]; [done|]. by rewrite Hv.
    + apply int_raises in Hint as ->. split; [by left|done].
  - ascii_response Hpy.
  - ascii_response Hpy.
  - ascii_response Hpy.
Qed.

Lemma noncanonical_numerals_labelled_witness :
  (forall m s v, int sample_interpreter (strip sample_interpreter s) = Ok v ->
     process_binary_responses sample_interpreter [s] m = Ok [m !! v])
  /\ (forall s, int sample_interpreter (strip sample_interpreter s) = Ok 0%Z ->
        process_binary_responses sample_interpreter [s] relevance_map
        = Ok [Some (pystr "irrelevant")])
  /\ (forall s, int sample_interpreter (strip sample_interpreter s) = Ok 1%Z ->
        process_binary_responses sample_interpreter [s] relevance_map
        = Ok [Some (pystr "relevant")])
  /\ (forall m s,
        process_binary_responses sample_interpreter [s] m = Ok [None]
        <-> int sample_interpreter (strip sample_interpreter s) = Raise ValueError
            \/ exists v, int sample_interpreter (strip sample_interpreter s) = Ok v
                         /\ m !! v = None)
  /\ process_binary_responses sample_interpreter [pystr "+1"] relevance_map
     = Ok [Some (pystr "relevant")]
  /\ process_binary_responses sample_interpreter [pystr "01"] relevance_map
     = Ok [Some (pystr "relevant")]
  /\ process_binary_responses sample_interpreter [pystr "1" ++ [10]] relevance_map
     = Ok [Some (pystr "relevant")].
Proof.
  exact (noncanonical_numerals_labelled sample_interpreter sample_interpreter_conforms).
Defined.

(** ** The precision@k cell *)

Lemma take_pad {A} (n : nat) (x : A) (l : list A) :
  length l = n -> take n (l ++ replicate (n - length l) x) = l.
Proof.
  intros <-. rewrite Nat.sub_diag. cbn. rewrite app_nil_r. apply firstn_all.
Qed.

Lemma range_0_2 : range 0 2 = [0%Z; 1%Z].
Proof. reflexivity. Qed.

Lemma ndarray_iadd_same_shape (a : list float) (b : list Z) :
  length a = length b ->
  ndarray_iadd a b = Ok (zip_with (fun x y => (x + float_of_int y)%float) a b).
Proof. intros H. unfold ndarray_iadd. by rewrite H, Nat.eqb_refl. Qed.

Lemma length_counts_after a column :
  length a = length column -> length (counts_after a column) = length column.
Proof. intros H. unfold counts_after. rewrite length_zip_with, length_fmap. lia. Qed.

Lemma counts_after_lookup a column i x y :
  a !! i = Some x -> column !! i = Some y ->
  counts_after a column !! i = Some (x + float_of_int (is_relevant y))%float.
Proof.
  intros Ha Hc. unfold counts_after.
  by rewrite lookup_zip_with, Ha, list_lookup_fmap, Hc.
Qed.

Lemma length_np_zeros n : length (np_zeros n) = n.
Proof. apply length_replicate. Qed.

Lemma np_zeros_lookup n i : (i < n)%nat -> np_zeros n !! i = Some 0%float.
Proof. intros H. unfold np_zeros. by rewrite lookup_replicate_2. Qed.

Lemma with_relevance_well_formed df c0 c1 :
  well_formed df -> length c0 = nrows df -> length c1 = nrows df ->
  well_formed (with_relevance df c0 c1).
Proof.
  intros Hwf L0 L1 name column. cbn [with_relevance columns nrows].
  rewrite !lookup_insert. repeat case_decide; [congruence..|apply Hwf].
Qed.

Lemma relevance_frame_well_formed c0 c1 :
  length c1 = length c0 -> well_formed (relevance_frame c0 c1).
Proof.
  intros L. apply with_relevance_well_formed; [|done..].
  intros name column. cbn. by rewrite lookup_empty.
Qed.

(** One iteration on a dataframe that has the column and whose array has
    one entry per row. *)
Lemma precision_step_run idx st column :
  columns (query_df st) !! (pystr "openai_relevance_" ++ format_int idx)
    = Some column ->
  length (num_relevant_documents_array st) = nrows (query_df st) ->
  length column = nrows (query_df st) ->
  precision_step idx st =
    Ok {| num_retrieved_documents := (idx + 1)%Z;
          num_relevant_documents_array :=
            counts_after (num_relevant_documents_array st) column;
          query_df :=
            {| nrows := nrows (query_df st);
               columns :=
                 <[pystr "openai_precision@" ++ format_int (idx + 1) :=
                     VFloat <$> ndarray_truediv
                       (counts_after (num_relevant_documents_array st) column)
                       (idx + 1)]> (columns (query_df st)) |} |}.
Proof.
  intros Hcol Harr Hlen. unfold precision_step, df_getitem. rewrite Hcol. cbn.
  rewrite ndarray_iadd_same_shape by (rewrite length_fmap; congruence). cbn.
  unfold df_setitem_series. rewrite take_pad; [done|].
  unfold ndarray_truediv. rewrite !length_fmap.
  fold (counts_after (num_relevant_documents_array st) column).
  rewrite length_counts_after; congruence.
Qed.

(** The whole cell, entered with the global at 2. *)
Lemma precision_cell_run df c0 c1 :
  well_formed df ->
  columns df !! pystr "openai_relevance_0" = Some c0 ->
  columns df !! pystr "openai_relevance_1" = Some c1 ->
  let a1 := counts_after (np_zeros (nrows df)) c0 in
  let a2 := counts_after a1 c1 in
  precision_cell 2 df =
    Ok {| num_retrieved_documents := 2;
          num_relevant_documents_array := a2;
          query_df :=
            {| nrows := nrows df;
               columns :=
                 <[pystr "openai_precision@2" := VFloat <$> ndarray_truediv a2 2]>
                   (<[pystr "openai_precision@1" := VFloat <$> ndarray_truediv a1 1]>
                      (columns df)) |} |}.
Proof.
  intros Hwf H0 H1 a1 a2.
  pose proof (Hwf _ _ H0) as L0. pose proof (Hwf _ _ H1) as L1.
  unfold precision_cell. rewrite range_0_2.
  cbn [foldl mbind result_bind].
  rewrite (precision_step_run 0 _ c0); cbn; try done.
  2: by rewrite length_np_zeros.
  rewrite (precision_step_run 1 _ c1); cbn; try done.
  - rewrite lookup_insert_ne; [exact H1|]. by vm_compute.
  - etrans; [apply length_counts_after|done]. by rewrite length_np_zeros.
Qed.

(** The four cases of a pair of labels, each a closed float64 computation. *)
Lemma precision_row x0 x1 :
  ((0 + float_of_int (is_relevant x0)) / float_of_int 1)%float
    = precision_at_spec 1 [x0; x1]
  /\ ((0 + float_of_int (is_relevant x0) + float_of_int (is_relevant x1))
      / float_of_int 2)%float
    = precision_at_spec 2 [x0; x1].
Proof.
  unfold precision_at_spec, count_relevant, is_relevant. cbn [take List.filter].
  destruct (eq_str x0 _), (eq_str x1 _); split; reflexivity.
Qed.

(** C2: on a dataframe with the two relevance columns the cell runs to its
    end, and in every row precision@k, for k = 1 and k = 2, is the number of
    labels equal to "relevant" among the first k of the row, divided by k, in
    float64. The row [relevant, irrelevant] gets 1.0 and 0.5. The statement
    is about dataframes that have a row (see [precision_step]). *)
Theorem precision_at_k_correct :
  (forall df c0 c1,
     nrows df <> 0%nat ->
     well_formed df ->
     columns df !! pystr "openai_relevance_0" = Some c0 ->
     columns df !! pystr "openai_relevance_1" = Some c1 ->
     exists st p1 p2,
       precision_cell 2 df = Ok st
       /\ columns (query_df st) !! pystr "openai_precision@1" = Some p1
       /\ columns (query_df st) !! pystr "openai_precision@2" = Some p2
       /\ length p1 = nrows df /\ length p2 = nrows df
       /\ forall i x0 x1, c0 !! i = Some x0 -> c1 !! i = Some x1 ->
            p1 !! i = Some (VFloat (precision_at_spec 1 [x0; x1]))
            /\ p2 !! i = Some (VFloat (precision_at_spec 2 [x0; x1])))
  /\ precision_columns
       (precision_cell 2
          (relevance_frame [VStr (pystr "relevant")] [VStr (pystr "irrelevant")]))
     = Some ([VFloat 1], [VFloat 0.5]).
Proof.
  split; [|vm_compute; reflexivity].
  intros df c0 c1 _ Hwf H0 H1.
  pose proof (Hwf _ _ H0) as L0. pose proof (Hwf _ _ H1) as L1.
  eexists _, _, _. split; [by apply precision_cell_run|]. cbn [query_df columns].
  split. { rewrite lookup_insert_ne by by vm_compute. apply lookup_insert_eq. }
  split. { apply lookup_insert_eq. }
  assert (La1 : length (counts_after (np_zeros (nrows df)) c0) = nrows df).
  { etrans; [apply length_counts_after|done]. by rewrite length_np_zeros. }
  split. { unfold ndarray_truediv. by rewrite !length_fmap. }
  split.
  { unfold ndarray_truediv. rewrite !length_fmap.
    etrans; [apply length_counts_after|]; congruence. }
  intros i x0 x1 Hx0 Hx1.
  assert (Hi : (i < nrows df)%nat) by (rewrite <- L0; by eapply lookup_lt_Some).
  pose proof (counts_after_lookup _ _ _ _ _ (np_zeros_lookup _ _ Hi) Hx0) as Ha1.
  pose proof (counts_after_lookup _ _ _ _ _ Ha1 Hx1) as Ha2.
  destruct (precision_row x0 x1) as [<- <-].
  unfold ndarray_truediv. by rewrite !list_lookup_fmap, Ha1, Ha2.
Qed.

Lemma precision_at_k_correct_witness :
  exists st p1 p2,
    precision_cell 2
      (relevance_frame [VStr (pystr "relevant"); VNone]
                       [VStr (pystr "relevant"); VStr (pystr "irrelevant")])
    = Ok st
    /\ columns (query_df st) !! pystr "openai_precision@1" = Some p1
    /\ columns (query_df st) !! pystr "openai_precision@2" = Some p2
    /\ length p1 = 2%nat /\ length p2 = 2%nat
    /\ forall i x0 x1,
         [VStr (pystr "relevant"); VNone] !! i = Some x0 ->
         [VStr (pystr "relevant"); VStr (pystr "irrelevant")] !! i = Some x1 ->
         p1 !! i = Some (VFloat (precision_at_spec 1 [x0; x1]))
         /\ p2 !! i = Some (VFloat (precision_at_spec 2 [x0; x1])).
Proof.
  apply (proj1 precision_at_k_correct
           (relevance_frame [VStr (pystr "relevant"); VNone]
                            [VStr (pystr "relevant"); VStr (pystr "irrelevant")])).
  - discriminate.
  - by apply relevance_frame_well_formed.
  - vm_compute. reflexivity.
  - vm_compute. reflexivity.
Defined.

(** Entered with the global at 2, the cell leaves it at 2: running the cell
    again iterates over the same range. *)
Lemma precision_cell_restores_global df st :
  precision_cell 2 df = Ok st -> num_retrieved_documents st = 2%Z.
Proof.
  unfold precision_cell. rewrite range_0_2. cbn [foldl mbind result_bind].
  destruct (precision_step 0 _) as [st1|]; [|done].
  intros Hstep. cbn [mbind result_bind] in Hstep. unfold precision_step in Hstep.
  destruct (df_getitem (query_df st1) _) as [column|]; [cbn in Hstep|done].
  destruct (ndarray_iadd _ _) as [array|]; [cbn in Hstep|done].
  by injection Hstep as <-.
Qed.

(** C6: the loop runs its body for the indices 0 and 1; an iteration that
    divides leaves [num_retrieved_documents] at index + 1, which is 1 or 2 and
    is not zero as an integer or as a float64, and the column it writes is the
    array divided by that number. *)
Theorem precision_divisor_nonzero (idx : Z) (st st' : cell_state) :
  idx ∈ range 0 2 ->
  precision_step idx st = Ok st' ->
  (idx = 0 \/ idx = 1)%Z
  /\ num_retrieved_documents st' = (idx + 1)%Z
  /\ num_retrieved_documents st' <> 0%Z
  /\ (float_of_int (num_retrieved_documents st') =? 0)%float = false
  /\ query_df st'
     = df_setitem_series (query_df st)
         (pystr "openai_precision@" ++ format_int (idx + 1))
         (VFloat <$> ndarray_truediv (num_relevant_documents_array st')
                       (num_retrieved_documents st')).
Proof.
  rewrite range_0_2. intros Hidx Hstep.
  assert (Hcases : (idx = 0 \/ idx = 1)%Z).
  { apply elem_of_cons in Hidx as [?|Hidx]; [by left|].
    apply elem_of_cons in Hidx as [?|Hidx]; [by right|].
    by apply elem_of_nil in Hidx. }
  split; [exact Hcases|].
  unfold precision_step in Hstep.
  destruct (df_getitem _ _) as [column|]; [cbn in Hstep|done].
  destruct (ndarray_iadd _ _) as [array|]; [cbn in Hstep|done].
  injection Hstep as <-. cbn [num_retrieved_documents num_relevant_documents_array query_df].
  split; [done|]. split; [lia|]. split; [|done].
  by destruct Hcases as [-> | ->].
Qed.

Lemma precision_divisor_nonzero_witness :
  let st := {| num_retrieved_documents := 2;
               num_relevant_documents_array := np_zeros 1;
               query_df := relevance_frame [VStr (pystr "relevant")] [VNone] |} in
  let st' := match precision_step 0 st with Ok st' => st' | Raise _ => st end in
  (0 = 0 \/ 0 = 1)%Z
  /\ num_retrieved_documents st' = (0 + 1)%Z
  /\ num_retrieved_documents st' <> 0%Z
  /\ (float_of_int (num_retrieved_documents st') =? 0)%float = false
  /\ query_df st'
     = df_setitem_series (query_df st)
         (pystr "openai_precision@" ++ format_int (0 + 1))
         (VFloat <$> ndarray_truediv (num_relevant_documents_array st')
                       (num_retrieved_documents st')).
Proof.
  intros st st'. apply (precision_divisor_nonzero 0 st st').
  - rewrite range_0_2. by left.
  - vm_compute. reflexivity.
Defined.

Lemma is_relevant_as_irrelevant x : is_relevant (as_irrelevant x) = is_relevant x.
Proof. by destruct x. Qed.

Lemma counts_after_as_irrelevant a column :
  counts_after a (as_irrelevant <$> column) = counts_after a column.
Proof.
  unfold counts_after. rewrite <- list_fmap_compose. f_equal.
  apply list_fmap_ext. intros _ x _. apply is_relevant_as_irrelevant.
Qed.

Lemma precision_columns_run df c0 c1 :
  well_formed df ->
  columns df !! pystr "openai_relevance_0" = Some c0 ->
  columns df !! pystr "openai_relevance_1" = Some c1 ->
  precision_columns (precision_cell 2 df)
  = Some (VFloat <$> ndarray_truediv (counts_after (np_zeros (nrows df)) c0) 1,
          VFloat <$> ndarray_truediv
            (counts_after (counts_after (np_zeros (nrows df)) c0) c1) 2).
Proof.
  intros Hwf H0 H1. rewrite (precision_cell_run df c0 c1) by done.
  cbn [precision_columns query_df columns].
  rewrite (lookup_insert_ne _ (pystr "openai_precision@2")
             (pystr "openai_precision@1")) by by vm_compute.
  by rewrite !lookup_insert_eq.
Qed.

(** C9: a cell adds 1 to the count exactly when it is the string "relevant";
    [None] adds 0, as "irrelevant" does. Reading every [None] label as
    "irrelevant" leaves both precision columns as they are, and the row
    [relevant, None] has precision@2 = 0.5: the unknown label stays in the
    denominator. *)
Theorem unknown_counts_as_irrelevant :
  (forall x, is_relevant x = 1%Z <-> x = VStr (pystr "relevant"))
  /\ (forall x, x <> VStr (pystr "relevant") -> is_relevant x = 0%Z)
  /\ is_relevant VNone = 0%Z
  /\ is_relevant (VStr (pystr "irrelevant")) = 0%Z
  /\ (forall df c0 c1,
        nrows df <> 0%nat ->
        well_formed df ->
        columns df !! pystr "openai_relevance_0" = Some c0 ->
        columns df !! pystr "openai_relevance_1" = Some c1 ->
        exists p1 p2,
          precision_columns (precision_cell 2 df) = Some (p1, p2)
          /\ precision_columns
               (precision_cell 2
                  (with_relevance df (as_irrelevant <$> c0) (as_irrelevant <$> c1)))
             = Some (p1, p2))
  /\ precision_columns
       (precision_cell 2
          (relevance_frame [VStr (pystr "relevant"); VNone] [VNone; VNone]))
     = Some ([VFloat 1; VFloat 0], [VFloat 0.5; VFloat 0]).
Proof.
  assert (Hone : forall x, is_relevant x = 1%Z <-> x = VStr (pystr "relevant")).
  { intros x. unfold is_relevant, eq_str.
    destruct x; cbn; try (split; [done|discriminate]).
    case_bool_decide; cbn; split; congruence. }
  split; [exact Hone|].
  split.
  { intros x Hx. unfold is_relevant in *.
    destruct (eq_str x _) eqn:E; [|done].
    exfalso. apply Hx, Hone. unfold is_relevant. by rewrite E. }
  split; [done|]. split; [done|].
  split; [|vm_compute; reflexivity].
  intros df c0 c1 _ Hwf H0 H1. eexists _, _.
  split; [by apply precision_columns_run|].
  rewrite (precision_columns_run _ (as_irrelevant <$> c0) (as_irrelevant <$> c1)).
  - cbn [with_relevance nrows]. by rewrite !counts_after_as_irrelevant.
  - apply with_relevance_well_formed; [done|rewrite length_fmap..]; by eapply Hwf.
  - cbn [with_relevance columns].
    rewrite lookup_insert_ne by by vm_compute. apply lookup_insert_eq.
  - apply lookup_insert_eq.
Qed.

Lemma unknown_counts_as_irrelevant_witness :
  exists p1 p2,
    precision_columns
      (precision_cell 2 (relevance_frame [VNone; VStr (pystr "relevant")]
                                         [VStr (pystr "relevant"); VNone]))
    = Some (p1, p2)
    /\ precision_columns
         (precision_cell 2
            (with_relevance
               (relevance_frame [VNone; VStr (pystr "relevant")]
                                [VStr (pystr "relevant"); VNone])
               (as_irrelevant <$> [VNone; VStr (pystr "relevant")])
               (as_irrelevant <$> [VStr (pystr "relevant"); VNone])))
       = Some (p1, p2).
Proof.
  apply (proj1 (proj2 (proj2 (proj2 (proj2 unknown_counts_as_irrelevant))))
           (relevance_frame [VNone; VStr (pystr "relevant")]
                            [VStr (pystr "relevant"); VNone])).
  - discriminate.
  - by apply relevance_frame_well_formed.
  - vm_compute. reflexivity.
  - vm_compute. reflexivity.
Defined.

(** ** [load_llama_index_database_into_dataframe] *)

Section LoaderFacts.
Context (pd : pandas) (np_array : value -> result value).

Lemma loader_loop_raise docstore vector_store e doc_ids :
  foldl (fun acc doc_id =>
           lists ← acc; loader_step np_array docstore vector_store lists doc_id)
        (Raise e) doc_ids = Raise e.
Proof. induction doc_ids as [|d ds IH]; [done|]. cbn. exact IH. Qed.


Lemma loader_loop_total docstore vector_store doc_ids texts0 vectors0 :
  Forall (fun doc_id => exists t v,
            document_text docstore doc_id = Ok t
            /\ document_embedding np_array vector_store doc_id = Ok v) doc_ids ->
  exists texts vectors,
    foldl (fun acc doc_id =>
             lists ← acc; loader_step np_array docstore vector_store lists doc_id)
        (Ok (texts0, vectors0)) doc_ids = Ok (texts, vectors)
    /\ length texts = (length texts0 + length doc_ids)%nat
    /\ length vectors = (length vectors0 + length doc_ids)%nat.
Proof.
  intros Hall. revert texts0 vectors0.
  induction Hall as [|doc_id doc_ids (t & v & Ht & Hv) _ IH];
    intros texts0 vectors0; cbn.
  - exists texts0, vectors0. repeat split; lia.
  - rewrite Ht. cbn. rewrite Hv. cbn.
    destruct (IH (texts0 ++ [t]) (vectors0 ++ [v]))
      as (texts & vectors & -> & Lt & Lv).
    exists texts, vectors. rewrite !length_app in *. cbn in *. repeat split; lia.
Qed.

Lemma mapM_Ok {A B} (f : A -> result B) (l : list A) (k : list B) :
  mapM f l = Ok k <-> Forall2 (fun x y => f x = Ok y) l k.
Proof.
  revert k. induction l as [|x l IH]; intros k; cbn [mapM].
  - split; [intros [= <-]; constructor|]. by intros ->%Forall2_nil_inv_l.
  - split.
    + destruct (f x) as [y|] eqn:Hy; [cbn [mbind result_bind]|done].
      destruct (mapM f l) as [k'|]; [cbn [mbind result_bind]|done].
      intros [= <-]. constructor; [done|]. by apply IH.
    + intros (y & k' & Hy & Hk & ->)%Forall2_cons_inv_l.
      apply IH in Hk. by rewrite Hy, Hk.
Qed.

(** A column has one cell for each cell of the list, each the conversion of
    the cell at its position. *)
Lemma sanitize_array_Ok (cells column : list value) :
  sanitize_array pd cells = Ok column <->
  Forall2 (fun x y => astype pd (infer_dtype pd cells) x = Ok y) cells column.
Proof. apply mapM_Ok. Qed.

Lemma length_sanitize_array (cells column : list value) :
  sanitize_array pd cells = Ok column -> length column = length cells.
Proof. intros H%sanitize_array_Ok. symmetry. by eapply Forall2_length. Qed.


Lemma pd_DataFrame_two_Ok k1 k2 (c1 c2 a1 a2 : list value) :
  length c2 = length c1 ->
  sanitize_array pd c1 = Ok a1 ->
  sanitize_array pd c2 = Ok a2 ->
  pd_DataFrame pd [(k1, c1); (k2, c2)]
  = Ok {| nrows := length c1; columns := <[k1 := a1]> (<[k2 := a2]> ∅) |}.
Proof.
  intros Hlen H1 H2. unfold pd_DataFrame. cbn [forallb snd fst].
  rewrite Hlen, Nat.eqb_refl. cbn [andb mapM fst snd]. by rewrite H1, H2.
Qed.

(** The loop collects the texts and the embeddings of the documents when
    every lookup succeeds. *)
Lemma loader_loop_Forall2 docstore vector_store doc_ids texts0 vectors0 ts vs :
  Forall2 (fun doc_id t => document_text docstore doc_id = Ok t) doc_ids ts ->
  Forall2 (fun doc_id v =>
             document_embedding np_array vector_store doc_id = Ok v)
          doc_ids vs ->
  foldl (fun acc doc_id =>
           lists ← acc; loader_step np_array docstore vector_store lists doc_id)
        (Ok (texts0, vectors0)) doc_ids = Ok (texts0 ++ ts, vectors0 ++ vs).
Proof.
  intros Hts. revert texts0 vectors0 vs.
  induction Hts as [|doc_id t doc_ids ts Ht _ IH]; intros texts0 vectors0 vs Hvs.
  - apply Forall2_nil_inv_l in Hvs as ->. by rewrite !app_nil_r.
  - apply Forall2_cons_inv_l in Hvs as (v & vs' & Hv & Hvs & ->).
    cbn [foldl mbind result_bind loader_step]. rewrite Ht.
    cbn [mbind result_bind]. rewrite Hv. cbn [mbind result_bind].
    rewrite (IH _ _ _ Hvs). by rewrite <- !app_assoc.
Qed.


End LoaderFacts.


(** The sample index loads into two rows, each text next to its own vector,
    although the vector store lists the embeddings in the other order. *)
Example loader_sample :
  (df ← load_llama_index_database_into_dataframe sample_pandas Ok
          sample_docstore sample_vector_store;
   texts ← df_getitem df (pystr "text");
   vectors ← df_getitem df (pystr "text_vector");
   Ok (nrows df, texts, vectors))
  = Ok (2%nat,
        [VStr (pystr "hello"); VStr (pystr "world")],
        [VList [VFloat 3; VFloat 4]; VList [VFloat 1; VFloat 2]]).
Proof. vm_compute. reflexivity. Qed.

(** Texts that are [null] and [7] load into the float64 column [[nan, 7.0]]:
    the cells of a column are not always the values of the docstore. *)
Example loader_converts_cells :
  (df ← load_llama_index_database_into_dataframe sample_pandas Ok
          mixed_docstore sample_vector_store;
   df_getitem df (pystr "text"))
  = Ok [VFloat nan; VFloat 7].
Proof. vm_compute. reflexivity. Qed.

(** * Further properties *)

Unset Default Proof Using.

(** ** Further properties of [process_binary_responses] *)

Lemma lstrip_all_spaces py s :
  Forall (fun c => Py_UNICODE_ISSPACE py c = true) s -> lstrip py s = [].
Proof. induction 1 as [|c s Hc _ IH]; [done|]. cbn. by rewrite Hc. Qed.

Lemma lstrip_app py s r :
  lstrip py (s ++ r) = lstrip py s ++ r
  \/ (lstrip py s = [] /\ lstrip py (s ++ r) = lstrip py r).
Proof.
  induction s as [|c s IH]; [by right|]. cbn.
  destruct (Py_UNICODE_ISSPACE py c); [exact IH|by left].
Qed.

Lemma rstrip_spaces_app py s r :
  Forall (fun c => Py_UNICODE_ISSPACE py c = true) r ->
  rstrip py (s ++ r) = rstrip py s.
Proof.
  intros Hr. unfold rstrip. rewrite reverse_app.
  by rewrite lstrip_spaces_app by by apply Forall_reverse.
Qed.

Lemma strip_surrounding py l s r :
  Forall (fun c => Py_UNICODE_ISSPACE py c = true) l ->
  Forall (fun c => Py_UNICODE_ISSPACE py c = true) r ->
  strip py (l ++ s ++ r) = strip py s.
Proof.
  intros Hl Hr. unfold strip. rewrite lstrip_spaces_app by done.
  destruct (lstrip_app py s r) as [-> | [-> ->]].
  - by apply rstrip_spaces_app.
  - by rewrite (lstrip_all_spaces py r).
Qed.

(** X1: whitespace on either side of a response, of any kind that
    [str.strip] removes, never changes the label the response gets, whatever
    the response and the map. *)
Theorem surrounding_whitespace_ignored
    (py : interpreter) (m : gmap Z str) (l s r : str) :
  Forall (fun c => Py_UNICODE_ISSPACE py c = true) l ->
  Forall (fun c => Py_UNICODE_ISSPACE py c = true) r ->
  process_binary_responses py [l ++ s ++ r] m = process_binary_responses py [s] m.
Proof.
  intros Hl Hr. rewrite !process_binary_responses_fmap. cbn [fmap list_fmap].
  unfold parsed_label. by rewrite strip_surrounding.
Qed.

(** X2: every label in the output is the entry of the map under the integer
    read in the response at that index, so no label is made up; with an empty
    map every response is unknown. *)
Theorem labels_come_from_map
    (py : interpreter) (rs : list str) (m : gmap Z str) (out : list (option str)) :
  process_binary_responses py rs m = Ok out ->
  (forall i label, out !! i = Some (Some label) ->
     exists s v, rs !! i = Some s /\ int py (strip py s) = Ok v /\ m !! v = Some label)
  /\ (m = ∅ -> out = replicate (length rs) None).
Proof.
  rewrite process_binary_responses_fmap. intros [= <-]. split.
  - intros i label. rewrite list_lookup_fmap.
    destruct (rs !! i) as [s|] eqn:Hs; [cbn|done].
    unfold parsed_label. destruct (int py (strip py s)) as [v|e] eqn:Hint; [|done].
    intros [= Hv]. by exists s, v.
  - intros ->. induction rs as [|s rs IH]; [done|]. cbn. rewrite IH. f_equal.
    unfold parsed_label. destruct (int py (strip py s)); [apply lookup_empty|done].
Qed.

(** X3: processing a batch of responses gives the results of its two parts,
    one after the other. *)
Theorem process_binary_responses_app
    (py : interpreter) (rs1 rs2 : list str) (m : gmap Z str) :
  process_binary_responses py (rs1 ++ rs2) m
  = (out1 ← process_binary_responses py rs1 m;
     out2 ← process_binary_responses py rs2 m;
     Ok (out1 ++ out2)).
Proof. rewrite !process_binary_responses_fmap. cbn. by rewrite fmap_app. Qed.

(** ** Numerals *)

Lemma digit_char_facts d :
  d < 10 ->
  ascii_todecimal (48 + d) = Some d
  /\ ascii_isspace (48 + d) = false
  /\ Py_ISSPACE (48 + d) = false
  /\ (48 + d =? 95) = false /\ (48 + d =? 43) = false /\ (48 + d =? 45) = false
  /\ (48 + d <? 127) = true.
Proof.
  intros Hd. unfold ascii_todecimal, ascii_isspace, Py_ISSPACE.
  replace (48 <=? 48 + d) with true by (symmetry; apply N.leb_le; lia).
  replace (48 + d <=? 57) with true by (symmetry; apply N.leb_le; lia).
  replace (48 + d <=? 13) with false by (symmetry; apply N.leb_gt; lia).
  replace (48 + d <=? 31) with false by (symmetry; apply N.leb_gt; lia).
  replace (48 + d =? 32) with false by (symmetry; apply N.eqb_neq; lia).
  replace (48 + d =? 95) with false by (symmetry; apply N.eqb_neq; lia).
  replace (48 + d =? 43) with false by (symmetry; apply N.eqb_neq; lia).
  replace (48 + d =? 45) with false by (symmetry; apply N.eqb_neq; lia).
  replace (48 + d <? 127) with true by (symmetry; apply N.ltb_lt; lia).
  rewrite !andb_false_r. cbn. repeat split. f_equal. lia.
Qed.

(** The scan reads a run of digits to its end. *)
Lemma scan_digits_digit_chars prev n z ds :
  Forall (fun d => d < 10) ds -> prev <> 95 ->
  exists prev',
    scan_digits prev n z (digit_chars ds)
    = Some (prev', n + N.of_nat (length ds), decimal_value z ds, [])
    /\ prev' <> 95.
Proof.
  intros Hds. revert prev n z.
  induction Hds as [|d ds Hd _ IH]; intros prev n z Hprev.
  - exists prev. cbn. by rewrite N.add_0_r.
  - change (digit_chars (d :: ds)) with ((48 + d) :: digit_chars ds).
    cbn [scan_digits].
    destruct (digit_char_facts d Hd) as (-> & _ & _ & -> & _).
    assert (Hc : 48 + d <> 95) by (cbn beta in Hd; lia).
    destruct (IH (48 + d) (n + 1) (10 * z + Z.of_N d)%Z Hc)
      as (prev' & -> & Hprev').
    exists prev'. split; [|done].
    replace (n + N.of_nat (length (d :: ds))) with (n + 1 + N.of_nat (length ds))
      by (cbn [length]; lia).
    reflexivity.
Qed.

Lemma transform_digit_chars py ds :
  Forall (fun d => d < 10) ds ->
  transform_decimal_and_space py (digit_chars ds) = digit_chars ds.
Proof.
  induction 1 as [|d ds Hd _ IH]; [done|].
  change (digit_chars (d :: ds)) with ((48 + d) :: digit_chars ds).
  cbn [transform_decimal_and_space].
  destruct (digit_char_facts d Hd) as (_ & _ & _ & _ & _ & _ & ->). by rewrite IH.
Qed.

Lemma transform_numeral py sign ds :
  Forall (fun d => d < 10) ds ->
  transform_decimal_and_space py (numeral sign ds) = numeral sign ds.
Proof.
  intros Hds. unfold numeral.
  destruct sign as [[]|]; cbn; by rewrite transform_digit_chars.
Qed.

(** What [PyLong_FromString] makes of a numeral. *)
Lemma PyLong_FromString_numeral py sign ds :
  ds <> [] -> Forall (fun d => d < 10) ds ->
  PyLong_FromString py (numeral sign ds)
  = if (640 <? N.of_nat (length ds)) && (0 <? max_str_digits py)
       && (max_str_digits py <? N.of_nat (length ds))
    then Raise ValueError
    else Ok (signed_value sign ds).
Proof.
  intros Hne Hds.
  destruct (scan_digits_digit_chars 0 0 0%Z ds Hds ltac:(done))
    as (prev & Hscan & Hprev).
  assert (Hprev' : (prev =? 95) = false) by by apply N.eqb_neq.
  assert (Hlen : (N.of_nat (length ds) =? 0) = false).
  { apply N.eqb_neq. destruct ds; [done|]. cbn [length]. lia. }
  assert (Hfirst : starts_with_underscore (digit_chars ds) = false).
  { destruct Hds as [|d ds Hd _]; [done|].
    change (digit_chars (d :: ds)) with ((48 + d) :: digit_chars ds).
    cbn [starts_with_underscore].
    by destruct (digit_char_facts d Hd) as (_ & _ & _ & -> & _). }
  assert (Hplain : take_sign (skip_spaces (digit_chars ds)) = (false, digit_chars ds)).
  { destruct Hds as [|d ds Hd _]; [done|].
    change (digit_chars (d :: ds)) with ((48 + d) :: digit_chars ds).
    destruct (digit_char_facts d Hd) as (_ & _ & Hsp & _ & H43 & H45 & _).
    cbn [skip_spaces]. rewrite Hsp. cbn [take_sign]. by rewrite H43, H45. }
  unfold PyLong_FromString, numeral, signed_value.
  destruct sign as [[]|]; cbn [sign_chars app].
  - change (take_sign (skip_spaces (45 :: digit_chars ds))) with (true, digit_chars ds).
    cbv beta iota. rewrite Hfirst, Hscan, Hprev', N.add_0_l, Hlen. by destruct (_ && _).
  - change (take_sign (skip_spaces (43 :: digit_chars ds))) with (false, digit_chars ds).
    cbv beta iota. rewrite Hfirst, Hscan, Hprev', N.add_0_l, Hlen. by destruct (_ && _).
  - rewrite Hplain. cbv beta iota. rewrite Hfirst, Hscan, Hprev', N.add_0_l, Hlen. by destruct (_ && _).
Qed.

Lemma rstrip_snoc py t c :
  Py_UNICODE_ISSPACE py c = false -> rstrip py (t ++ [c]) = t ++ [c].
Proof.
  intros Hc. unfold rstrip. rewrite reverse_app.
  change (reverse [c]) with [c]. cbn [app lstrip].
  rewrite Hc. by rewrite reverse_cons, reverse_involutive.
Qed.

Lemma strip_numeral py sign ds :
  conforms py -> ds <> [] -> Forall (fun d => d < 10) ds ->
  strip py (numeral sign ds) = numeral sign ds.
Proof.
  intros Hpy Hne Hds.
  assert (Hdigit : forall d, d < 10 -> Py_UNICODE_ISSPACE py (48 + d) = false).
  { intros d Hd. rewrite Hpy by lia. apply (digit_char_facts d Hd). }
  unfold strip.
  assert (Hl : lstrip py (numeral sign ds) = numeral sign ds).
  { unfold numeral. destruct sign as [[]|]; cbn.
    - by rewrite Hpy by lia.
    - by rewrite Hpy by lia.
    - destruct Hds as [|d ds Hd _]; [done|].
      change (digit_chars (d :: ds)) with ((48 + d) :: digit_chars ds).
      cbn [lstrip]. by rewrite Hdigit. }
  rewrite Hl. unfold numeral.
  destruct (exists_last Hne) as (ds' & d & ->).
  apply Forall_app in Hds as [_ Hd]. rewrite Forall_singleton in Hd.
  unfold digit_chars. rewrite fmap_app, app_assoc.
  change ((fun d => 48 + d) <$> [d]) with [48 + d].
  apply rstrip_snoc, Hdigit. exact Hd.
Qed.

Lemma int_numeral py sign ds :
  conforms py -> ds <> [] -> Forall (fun d => d < 10) ds ->
  int py (strip py (numeral sign ds))
  = if (640 <? N.of_nat (length ds)) && (0 <? max_str_digits py)
       && (max_str_digits py <? N.of_nat (length ds))
    then Raise ValueError
    else Ok (signed_value sign ds).
Proof.
  intros Hpy Hne Hds. rewrite strip_numeral by done. unfold int.
  rewrite transform_numeral by done. by apply PyLong_FromString_numeral.
Qed.

(** X4: a response made of an optional sign and at most 640 ASCII digits is
    mapped to the entry of the map under its decimal value, leading zeros and
    sign included; under [{0: "irrelevant", 1: "relevant"}] any value other
    than 0 and 1 is unknown. *)
Theorem numerals_labelled_by_value
    (py : interpreter) (m : gmap Z str) (sign : option bool) (ds : list N) :
  conforms py ->
  ds <> [] -> Forall (fun d => d < 10) ds -> (length ds <= 640)%nat ->
  process_binary_responses py [numeral sign ds] m = Ok [m !! signed_value sign ds]
  /\ process_binary_responses py [numeral sign ds] relevance_map
     = Ok [binary_label (Ok (signed_value sign ds))].
Proof.
  intros Hpy Hne Hds Hlen.
  assert (Hint : int py (strip py (numeral sign ds)) = Ok (signed_value sign ds)).
  { rewrite int_numeral by done.
    replace (640 <? N.of_nat (length ds)) with false; [done|].
    symmetry. apply N.ltb_ge. lia. }
  rewrite !process_binary_responses_fmap. cbn [fmap list_fmap].
  rewrite parsed_label_relevance. unfold parsed_label. by rewrite Hint.
Qed.

(** X5: for a numeral of more than 640 digits the result depends on the
    interpreter: with the digit limit on and below the number of digits,
    [int] raises and the response is unknown whatever its value; with the
    limit off or high enough, it is mapped by its value. *)
Theorem long_numerals_depend_on_digit_limit
    (py : interpreter) (m : gmap Z str) (sign : option bool) (ds : list N) :
  conforms py ->
  Forall (fun d => d < 10) ds -> (640 < length ds)%nat ->
  (0 < max_str_digits py < N.of_nat (length ds) ->
   process_binary_responses py [numeral sign ds] m = Ok [None])
  /\ (max_str_digits py = 0 \/ N.of_nat (length ds) <= max_str_digits py ->
      process_binary_responses py [numeral sign ds] m
      = Ok [m !! signed_value sign ds]).
Proof.
  intros Hpy Hds Hlen.
  assert (Hne : ds <> []) by (intros ->; cbn in Hlen; lia).
  rewrite !process_binary_responses_fmap. cbn [fmap list_fmap]. unfold parsed_label.
  rewrite int_numeral by done.
  replace (640 <? N.of_nat (length ds)) with true by (symmetry; apply N.ltb_lt; lia).
  split.
  - intros [H0 Hmax].
    replace (0 <? max_str_digits py) with true by (symmetry; by apply N.ltb_lt).
    by replace (max_str_digits py <? N.of_nat (length ds)) with true
      by (symmetry; by apply N.ltb_lt).
  - intros [-> | Hmax]; [done|].
    replace (max_str_digits py <? N.of_nat (length ds)) with false
      by (symmetry; by apply N.ltb_ge).
    by rewrite andb_false_r.
Qed.

(** ** Further properties of the precision@k cell *)

(** The rows of the two precision columns, from the labels of the row. *)
Lemma precision_cell_rows df c0 c1 :
  well_formed df ->
  columns df !! pystr "openai_relevance_0" = Some c0 ->
  columns df !! pystr "openai_relevance_1" = Some c1 ->
  exists st p1 p2,
    precision_cell 2 df = Ok st
    /\ columns (query_df st) !! pystr "openai_precision@1" = Some p1
    /\ columns (query_df st) !! pystr "openai_precision@2" = Some p2
    /\ length p1 = nrows df /\ length p2 = nrows df
    /\ forall i, (i < nrows df)%nat ->
         exists x0 x1, c0 !! i = Some x0 /\ c1 !! i = Some x1
           /\ p1 !! i = Some (VFloat (precision_at_spec 1 [x0; x1]))
           /\ p2 !! i = Some (VFloat (precision_at_spec 2 [x0; x1])).
Proof.
  intros Hwf H0 H1.
  pose proof (Hwf _ _ H0) as L0. pose proof (Hwf _ _ H1) as L1.
  eexists _, _, _. split; [by apply precision_cell_run|]. cbn [query_df columns].
  split. { rewrite lookup_insert_ne by by vm_compute. apply lookup_insert_eq. }
  split. { apply lookup_insert_eq. }
  assert (La1 : length (counts_after (np_zeros (nrows df)) c0) = nrows df).
  { etrans; [apply length_counts_after|done]. by rewrite length_np_zeros. }
  split. { unfold ndarray_truediv. by rewrite !length_fmap. }
  split.
  { unfold ndarray_truediv. rewrite !length_fmap.
    etrans; [apply length_counts_after|]; congruence. }
  intros i Hi.
  destruct (lookup_lt_is_Some_2 c0 i) as [x0 Hx0]; [lia|].
  destruct (lookup_lt_is_Some_2 c1 i) as [x1 Hx1]; [lia|].
  exists x0, x1. split; [done|]. split; [done|].
  pose proof (counts_after_lookup _ _ _ _ _ (np_zeros_lookup _ _ Hi) Hx0) as Ha1.
  pose proof (counts_after_lookup _ _ _ _ _ Ha1 Hx1) as Ha2.
  destruct (precision_row x0 x1) as [<- <-].
  unfold ndarray_truediv. by rewrite !list_lookup_fmap, Ha1, Ha2.
Qed.

(** The values precision@k takes on a row, by the labels of the row. *)
Lemma precision_at_spec_cases x0 x1 :
  precision_at_spec 1 [x0; x1]
  = (if eq_str x0 (pystr "relevant") then 1 else 0)%float
  /\ precision_at_spec 2 [x0; x1]
     = (if eq_str x0 (pystr "relevant")
        then if eq_str x1 (pystr "relevant") then 1 else 0.5
        else if eq_str x1 (pystr "relevant") then 0.5 else 0)%float.
Proof.
  unfold precision_at_spec, count_relevant. cbn [take List.filter].
  destruct (eq_str x0 _), (eq_str x1 _); split; reflexivity.
Qed.


Lemma eq_str_true x s : eq_str x s = true <-> x = VStr s.
Proof.
  destruct x; cbn; try (split; [done|discriminate]).
  case_bool_decide; split; congruence.
Qed.

(** Two float64 constants that compare unequal are different. *)
Ltac float_discriminate :=
  let H := fresh in
  intros H; apply (f_equal (fun x => PrimFloat.eqb x 0)) in H;
  vm_compute in H; discriminate H.

Lemma float_1_neq_0 : 1%float <> 0%float.
Proof. float_discriminate. Qed.

Lemma float_half_neq_0 : 0.5%float <> 0%float.
Proof. float_discriminate. Qed.

Lemma float_half_neq_1 : 0.5%float <> 1%float.
Proof.
  intros H. apply (f_equal (fun x => PrimFloat.eqb x 1)) in H.
  vm_compute in H. discriminate H.
Qed.

(** X6: every entry of the precision@1 column is 0.0 or 1.0 and every
    entry of the precision@2 column is 0.0, 0.5 or 1.0: no NaN, no infinity,
    nothing outside [0, 1]. *)
Theorem precision_values_bounded df c0 c1 :
  nrows df <> 0%nat ->
  well_formed df ->
  columns df !! pystr "openai_relevance_0" = Some c0 ->
  columns df !! pystr "openai_relevance_1" = Some c1 ->
  exists st p1 p2,
    precision_cell 2 df = Ok st
    /\ columns (query_df st) !! pystr "openai_precision@1" = Some p1
    /\ columns (query_df st) !! pystr "openai_precision@2" = Some p2
    /\ (forall i v, p1 !! i = Some v -> v = VFloat 0 \/ v = VFloat 1)
    /\ (forall i v, p2 !! i = Some v ->
          v = VFloat 0 \/ v = VFloat 0.5 \/ v = VFloat 1).
Proof.
  intros _ Hwf H0 H1.
  destruct (precision_cell_rows df c0 c1 Hwf H0 H1)
    as (st & p1 & p2 & Hrun & Hp1 & Hp2 & L1 & L2 & Hrows).
  exists st, p1, p2. repeat split; try done.
  - intros i v Hv.
    destruct (Hrows i) as (x0 & x1 & _ & _ & Hv1 & _);
      [rewrite <- L1; by eapply lookup_lt_Some|].
    rewrite Hv in Hv1. injection Hv1 as ->.
    rewrite (proj1 (precision_at_spec_cases x0 x1)).
    destruct (eq_str x0 _); auto.
  - intros i v Hv.
    destruct (Hrows i) as (x0 & x1 & _ & _ & _ & Hv2);
      [rewrite <- L2; by eapply lookup_lt_Some|].
    rewrite Hv in Hv2. injection Hv2 as ->.
    rewrite (proj2 (precision_at_spec_cases x0 x1)).
    destruct (eq_str x0 _), (eq_str x1 _); auto.
Qed.

(** X7: in every row precision@2 is 0 exactly when neither label is
    "relevant", and 1 exactly when both are; precision@1 is 1 exactly when
    the first label is "relevant". *)
Theorem precision_zero_iff_nothing_relevant df c0 c1 :
  nrows df <> 0%nat ->
  well_formed df ->
  columns df !! pystr "openai_relevance_0" = Some c0 ->
  columns df !! pystr "openai_relevance_1" = Some c1 ->
  exists st p1 p2,
    precision_cell 2 df = Ok st
    /\ columns (query_df st) !! pystr "openai_precision@1" = Some p1
    /\ columns (query_df st) !! pystr "openai_precision@2" = Some p2
    /\ forall i x0 x1, c0 !! i = Some x0 -> c1 !! i = Some x1 ->
         (p2 !! i = Some (VFloat 0)
          <-> x0 <> VStr (pystr "relevant") /\ x1 <> VStr (pystr "relevant"))
         /\ (p2 !! i = Some (VFloat 1)
             <-> x0 = VStr (pystr "relevant") /\ x1 = VStr (pystr "relevant"))
         /\ (p1 !! i = Some (VFloat 1) <-> x0 = VStr (pystr "relevant")).
Proof.
  intros _ Hwf H0 H1.
  destruct (precision_cell_rows df c0 c1 Hwf H0 H1)
    as (st & p1 & p2 & Hrun & Hp1 & Hp2 & L1 & L2 & Hrows).
  exists st, p1, p2. do 3 (split; [done|]).
  intros i x0 x1 Hx0 Hx1.
  destruct (Hrows i) as (y0 & y1 & Hy0 & Hy1 & -> & ->);
    [rewrite <- (Hwf _ _ H0); by eapply lookup_lt_Some|].
  assert (y0 = x0) as -> by congruence. assert (y1 = x1) as -> by congruence.
  destruct (precision_at_spec_cases x0 x1) as [-> ->].
  pose proof (eq_str_true x0 (pystr "relevant")) as R0.
  pose proof (eq_str_true x1 (pystr "relevant")) as R1.
  pose proof float_1_neq_0. pose proof float_half_neq_0. pose proof float_half_neq_1.
  destruct (eq_str x0 _), (eq_str x1 _); intuition congruence.
Qed.

Lemma length_take_pad {A} (n : nat) (x : A) (l : list A) :
  length (take n (l ++ replicate (n - length l) x)) = n.
Proof. rewrite length_take, length_app, length_replicate. lia. Qed.

Lemma columns_df_setitem_series df name values :
  columns (df_setitem_series df name values)
  = <[name := take (nrows df)
                (values ++ replicate (nrows df - length values) (VFloat nan))]>
      (columns df).
Proof. reflexivity. Qed.

(** The shape of an iteration that ends. *)
Lemma precision_step_Ok idx st st' :
  precision_step idx st = Ok st' ->
  exists values,
    query_df st'
    = df_setitem_series (query_df st)
        (pystr "openai_precision@" ++ format_int (idx + 1)) values.
Proof.
  unfold precision_step.
  destruct (df_getitem _ _) as [column|]; [cbn [mbind result_bind]|done].
  destruct (ndarray_iadd _ _) as [array|]; [cbn [mbind result_bind]|done].
  intros Hst. injection Hst as <-. by eexists.
Qed.

(** What an iteration leaves alone. *)
Lemma precision_step_frame idx st st' :
  precision_step idx st = Ok st' ->
  nrows (query_df st') = nrows (query_df st)
  /\ (forall name,
        name <> pystr "openai_precision@" ++ format_int (idx + 1) ->
        columns (query_df st') !! name = columns (query_df st) !! name)
  /\ (well_formed (query_df st) -> well_formed (query_df st')).
Proof.
  intros Hstep. apply precision_step_Ok in Hstep as [values ->].
  rewrite columns_df_setitem_series.
  split; [done|]. split.
  - intros name Hname. by rewrite lookup_insert_ne by congruence.
  - intros Hwf name column'. rewrite columns_df_setitem_series, lookup_insert.
    case_decide.
    + intros [= <-]. apply length_take_pad.
    + apply Hwf.
Qed.

(** X8: a run of the cell that ends keeps the number of rows and every
    column other than the two precision columns, the relevance labels
    included, and a well-formed dataframe stays well-formed. *)
Theorem precision_cell_frame df st :
  precision_cell 2 df = Ok st ->
  nrows (query_df st) = nrows df
  /\ (forall name,
        name <> pystr "openai_precision@1" -> name <> pystr "openai_precision@2" ->
        columns (query_df st) !! name = columns df !! name)
  /\ (well_formed df -> well_formed (query_df st)).
Proof.
  unfold precision_cell. rewrite range_0_2. cbn [foldl mbind result_bind].
  destruct (precision_step 0 _) as [st1|] eqn:Hstep1; [|done].
  cbn [mbind result_bind]. intros Hstep2.
  apply precision_step_frame in Hstep1 as (N1 & C1 & W1).
  apply precision_step_frame in Hstep2 as (N2 & C2 & W2).
  cbn [query_df] in *. split; [congruence|]. split.
  - intros name Hname1 Hname2. rewrite C2 by exact Hname2. by apply C1.
  - auto.
Qed.

(** X9: without the column "openai_relevance_0" the cell raises
    [KeyError]; with it and without "openai_relevance_1" it raises [KeyError]
    as well, in the second turn of the loop. *)
Theorem precision_cell_missing_column df :
  (columns df !! pystr "openai_relevance_0" = None ->
   precision_cell 2 df = Raise KeyError)
  /\ (forall c0,
        nrows df <> 0%nat -> well_formed df ->
        columns df !! pystr "openai_relevance_0" = Some c0 ->
        columns df !! pystr "openai_relevance_1" = None ->
        precision_cell 2 df = Raise KeyError).
Proof.
  split.
  - intros H0. unfold precision_cell. rewrite range_0_2. cbn [foldl mbind result_bind].
    unfold precision_step at 2, df_getitem. cbn [query_df].
    change (pystr "openai_relevance_" ++ format_int 0)
      with (pystr "openai_relevance_0").
    by rewrite H0.
  - intros c0 _ Hwf H0 H1. unfold precision_cell. rewrite range_0_2.
    cbn [foldl mbind result_bind].
    rewrite (precision_step_run 0 _ c0); cbn [query_df num_relevant_documents_array];
      [|exact H0|by rewrite length_np_zeros|exact (Hwf _ _ H0)].
    cbn [mbind result_bind]. unfold precision_step, df_getitem. cbn [query_df columns].
    rewrite lookup_insert_ne by by vm_compute.
    change (pystr "openai_relevance_" ++ format_int 1)
      with (pystr "openai_relevance_1").
    by rewrite H1.
Qed.

(** X10: running the cell again on the dataframe and the global it left
    gives the same state: the range is again [0, 1] and the precision columns
    are written with the same values. *)
Theorem precision_cell_idempotent df c0 c1 st :
  nrows df <> 0%nat ->
  well_formed df ->
  columns df !! pystr "openai_relevance_0" = Some c0 ->
  columns df !! pystr "openai_relevance_1" = Some c1 ->
  precision_cell 2 df = Ok st ->
  precision_cell (num_retrieved_documents st) (query_df st) = Ok st.
Proof.
  intros _ Hwf H0 H1 Hrun.
  destruct (precision_cell_frame df st Hrun) as (Hn & Hsame & Hwf').
  rewrite (precision_cell_restores_global df st Hrun).
  rewrite (precision_cell_run df c0 c1) in Hrun by done.
  injection Hrun as <-. cbn [query_df nrows columns] in *.
  rewrite (precision_cell_run _ c0 c1); cbn [nrows columns].
  - do 2 f_equal.
    rewrite (insert_insert_ne _ (pystr "openai_precision@1")
               (pystr "openai_precision@2")) by by vm_compute.
    by rewrite !insert_insert_eq.
  - by apply Hwf'.
  - by rewrite !lookup_insert_ne by by vm_compute.
  - by rewrite !lookup_insert_ne by by vm_compute.
Qed.

(** ** Further properties of the loader *)

Lemma assoc_Some k d v :
  NoDup (d.*1) -> assoc k d = Some v <-> (k, v) ∈ d.
Proof.
  induction d as [|[k' v'] d IH]; cbn.
  - intros _. split; [done|]. intros H. by apply elem_of_nil in H.
  - intros [Hk' Hd]%NoDup_cons. rewrite elem_of_cons. case_bool_decide as Hk.
    + subst k'. split; [intros [= ->]; by left|].
      intros [[= ->]|Hin]; [done|].
      exfalso. apply Hk'. apply list_elem_of_fmap. by exists (k, v).
    + rewrite (IH Hd). split; [by right|]. intros [[= ? ?]|?]; [congruence|done].
Qed.

Lemma assoc_Permutation k d d' :
  NoDup (d.*1) -> d ≡ₚ d' -> assoc k d = assoc k d'.
Proof.
  intros Hd Hperm.
  assert (Hd' : NoDup (d'.*1)) by by rewrite <- Hperm.
  apply option_eq. intros v. rewrite !assoc_Some by done. by rewrite Hperm.
Qed.

Section LoaderMore.
Context (pd : pandas) (np_array : value -> result value).

Lemma loader_loop_ext docstore vector_store vector_store' doc_ids acc :
  Forall (fun doc_id =>
            document_embedding np_array vector_store doc_id
            = document_embedding np_array vector_store' doc_id) doc_ids ->
  foldl (fun acc doc_id =>
           lists ← acc; loader_step np_array docstore vector_store lists doc_id)
        acc doc_ids
  = foldl (fun acc doc_id =>
           lists ← acc; loader_step np_array docstore vector_store' lists doc_id)
        acc doc_ids.
Proof.
  intros Hall. revert acc.
  induction Hall as [|doc_id doc_ids Heq _ IH]; intros acc; [done|].
  cbn [foldl]. rewrite <- IH. f_equal.
  destruct acc as [[texts vectors]|e]; [|done]. cbn.
  by rewrite Heq.
Qed.

(** X11: for a docstore without documents the loader returns the dataframe
    with two empty columns, and never looks at the vector store. *)
Theorem loader_empty_docstore docstore vector_store data :
  getitem docstore (VStr (pystr "docstore/data")) = Ok data ->
  iterate data = Ok [] ->
  load_llama_index_database_into_dataframe pd np_array docstore vector_store
  = Ok empty_database.
Proof.
  intros Hdata Hids. unfold load_llama_index_database_into_dataframe.
  rewrite Hdata. cbn [mbind result_bind]. by rewrite Hids.
Qed.

(** X12: the first document, in iteration order, whose text or embedding
    cannot be read decides the outcome: the loader raises that exception and
    returns no dataframe, whatever the documents before and after it. *)
Theorem loader_first_failure docstore vector_store data doc_ids1 doc_id doc_ids2 e :
  getitem docstore (VStr (pystr "docstore/data")) = Ok data ->
  iterate data = Ok (doc_ids1 ++ doc_id :: doc_ids2) ->
  Forall (fun doc_id => exists t v,
            document_text docstore doc_id = Ok t
            /\ document_embedding np_array vector_store doc_id = Ok v) doc_ids1 ->
  document_text docstore doc_id = Raise e
  \/ (exists t, document_text docstore doc_id = Ok t)
     /\ document_embedding np_array vector_store doc_id = Raise e ->
  load_llama_index_database_into_dataframe pd np_array docstore vector_store = Raise e.
Proof.
  intros Hdata Hids Hall Hfail. unfold load_llama_index_database_into_dataframe.
  rewrite Hdata. cbn [mbind result_bind]. rewrite Hids. cbn [mbind result_bind].
  unfold loader_loop. rewrite foldl_app.
  destruct (loader_loop_total np_array docstore vector_store doc_ids1 [] [] Hall)
    as (texts & vectors & -> & _). cbn [foldl mbind result_bind loader_step].
  destruct Hfail as [-> | [[t ->] ->]]; cbn [mbind result_bind];
    by rewrite loader_loop_raise.
Qed.


(** X14: the order of the entries of [embedding_dict] does not matter: two
    vector stores whose entries are the same up to order load into the same
    dataframe. *)
Theorem loader_ignores_embedding_order docstore vector_store vector_store' d d' :
  getitem vector_store (VStr (pystr "embedding_dict")) = Ok (VDict d) ->
  getitem vector_store' (VStr (pystr "embedding_dict")) = Ok (VDict d') ->
  NoDup (d.*1) -> d ≡ₚ d' ->
  load_llama_index_database_into_dataframe pd np_array docstore vector_store
  = load_llama_index_database_into_dataframe pd np_array docstore vector_store'.
Proof.
  intros Hd Hd' Hnodup Hperm. unfold load_llama_index_database_into_dataframe.
  destruct (getitem docstore _) as [data|]; [cbn [mbind result_bind]|done].
  destruct (iterate data) as [doc_ids|]; [cbn [mbind result_bind]|done].
  unfold loader_loop. rewrite (loader_loop_ext docstore vector_store vector_store'); [done|].
  apply Forall_forall. intros doc_id _. unfold document_embedding.
  rewrite Hd, Hd'. cbn [mbind result_bind]. f_equal.
  destruct doc_id; try done. cbn. by rewrite (assoc_Permutation _ d d').
Qed.

End LoaderMore.

(** ** [evaluate_retrievals] *)

Section RetrievalFacts.
Context {World : Type}.
Context (evaluate : value -> value -> str -> World -> result str * World).

Lemma evaluate_retrievals_raise model_name e w items :
  foldl (evaluate_retrievals_step evaluate model_name) (Raise e, w) items
  = (Raise e, w).
Proof. induction items as [|item items IH]; [done|]. exact IH. Qed.

(** The loop from any list of responses already collected. *)
Lemma evaluate_retrievals_from model_name acc w items :
  foldl (evaluate_retrievals_step evaluate model_name) (Ok acc, w) items
  = match evaluate_retrievals evaluate items model_name w with
    | (Ok responses, w') => (Ok (acc ++ responses), w')
    | (Raise e, w') => (Raise e, w')
    end.
Proof.
  unfold evaluate_retrievals. revert acc w.
  induction items as [|item items IH]; intros acc w; cbn [foldl].
  - by rewrite app_nil_r.
  - unfold evaluate_retrievals_step at 2 4.
    destruct (evaluate item.1 item.2 model_name w) as [[response|e] w1].
    + rewrite (IH (acc ++ [response])), (IH ([] ++ [response])).
      destruct (foldl _ (Ok [], w1) items) as [[responses|e] w2]; [|done].
      by rewrite <- app_assoc.
    + by rewrite !evaluate_retrievals_raise.
Qed.

(** X16: evaluating a batch is evaluating its first part and then, from the
    state of the world that leaves, its second part; the responses are
    joined, and a failure of the first part skips the second. *)
Theorem evaluate_retrievals_app items1 items2 model_name w :
  evaluate_retrievals evaluate (items1 ++ items2) model_name w
  = match evaluate_retrievals evaluate items1 model_name w with
    | (Ok responses1, w1) =>
        match evaluate_retrievals evaluate items2 model_name w1 with
        | (Ok responses2, w2) => (Ok (responses1 ++ responses2), w2)
        | (Raise e, w2) => (Raise e, w2)
        end
    | (Raise e, w1) => (Raise e, w1)
    end.
Proof.
  unfold evaluate_retrievals at 1. rewrite foldl_app.
  fold (evaluate_retrievals evaluate items1 model_name w).
  destruct (evaluate_retrievals evaluate items1 model_name w) as [[responses1|e] w1].
  - apply evaluate_retrievals_from.
  - apply evaluate_retrievals_raise.
Qed.

(** X17: when [evaluate_retrievals] returns, it returns one response per
    item of the dict. *)
Theorem evaluate_retrievals_length items model_name w responses w' :
  evaluate_retrievals evaluate items model_name w = (Ok responses, w') ->
  length responses = length items.
Proof.
  revert responses w'. induction items as [|item items IH] using rev_ind;
    intros responses w'.
  - by intros [= <- _].
  - rewrite evaluate_retrievals_app.
    destruct (evaluate_retrievals evaluate items model_name w)
      as [[responses1|e] w1]; [|done].
    unfold evaluate_retrievals. cbn [foldl evaluate_retrievals_step].
    destruct (evaluate item.1 item.2 model_name w1) as [[response|e] w2]; [|done].
    intros [= <- _]. rewrite !length_app, (IH responses1 w1) by done. done.
Qed.

(** X18: the first call that raises ends [evaluate_retrievals] with that
    exception: the responses collected so far are lost and no later item is
    evaluated (the world stays as that call left it). *)
Theorem evaluate_retrievals_first_failure
    items1 item items2 model_name w responses1 w1 e w2 :
  evaluate_retrievals evaluate items1 model_name w = (Ok responses1, w1) ->
  evaluate item.1 item.2 model_name w1 = (Raise e, w2) ->
  evaluate_retrievals evaluate (items1 ++ item :: items2) model_name w
  = (Raise e, w2).
Proof.
  intros Hfirst Hfail. rewrite evaluate_retrievals_app, Hfirst.
  unfold evaluate_retrievals. cbn [foldl evaluate_retrievals_step].
  rewrite Hfail, evaluate_retrievals_raise. done.
Qed.

End RetrievalFacts.

(** ** The evaluation cell *)

Section CellFacts.
Context (key_eqb : value -> value -> bool).
Context (key_eqb_str : forall s t, key_eqb (VStr s) (VStr t) = bool_decide (s = t)).

Lemma dict_setitem_length d k v :
  length (dict_setitem key_eqb d k v)
  = if has_key key_eqb d k then length d else S (length d).
Proof.
  unfold has_key. induction d as [|[k' v'] d IH]; [done|]. cbn.
  destruct (key_eqb k' k); [done|]. cbn. rewrite IH. by destruct (existsb _ d).
Qed.

Lemma dict_setitem_fresh d k v :
  has_key key_eqb d k = false -> dict_setitem key_eqb d k v = d ++ [(k, v)].
Proof.
  unfold has_key. induction d as [|[k' v'] d IH]; [done|]. cbn.
  destruct (key_eqb k' k); [done|]. cbn. intros H. by rewrite IH.
Qed.

Lemma dict_setitem_keys d k v :
  (dict_setitem key_eqb d k v).*1 = if has_key key_eqb d k then d.*1 else d.*1 ++ [k].
Proof.
  unfold has_key. induction d as [|[k' v'] d IH]; [done|]. cbn.
  destruct (key_eqb k' k); [done|]. cbn. rewrite IH. by destruct (existsb _ d).
Qed.

(** On string keys, a key is in the dict when its string is among them. *)
Lemma has_key_str (ts : list str) d t :
  d.*1 = VStr <$> ts -> has_key key_eqb d (VStr t) = bool_decide (t ∈ ts).
Proof.
  revert ts. induction d as [|[k v] d IH]; intros [|t' ts] Hkeys; try done.
  injection Hkeys as -> Hkeys. unfold has_key in *. cbn.
  rewrite key_eqb_str, (IH ts Hkeys).
  rewrite <- bool_decide_or. apply bool_decide_ext.
  rewrite elem_of_cons. intuition congruence.
Qed.

(** The keys of the dict built from rows with string keys: the strings in
    the order of their first row. *)
Lemma dict_of_items_str (texts : list str) (contexts : list value) :
  length contexts = length texts ->
  exists ts,
    (dict_of_items key_eqb (zip (VStr <$> texts) contexts)).*1 = VStr <$> ts
    /\ NoDup ts /\ (forall t, t ∈ ts <-> t ∈ texts)
    /\ (NoDup texts ->
        dict_of_items key_eqb (zip (VStr <$> texts) contexts)
        = zip (VStr <$> texts) contexts).
Proof.
  revert contexts. induction texts as [|t texts IH] using rev_ind; intros contexts Hlen.
  - exists []. repeat split; try done. constructor.
  - destruct contexts as [|c contexts _] using rev_ind;
      [rewrite length_app in Hlen; cbn in Hlen; lia|].
    rewrite !length_app in Hlen. cbn in Hlen.
    assert (Hlen' : length contexts = length texts) by lia.
    destruct (IH contexts Hlen') as (ts & Hkeys & Hnd & Hin & Hid).
    rewrite fmap_app, zip_with_app by (rewrite length_fmap; lia).
    unfold dict_of_items in *. rewrite foldl_app. cbn [foldl zip zip_with fmap list_fmap fst snd].
    pose proof (has_key_str ts _ t Hkeys) as Hhas.
    case_bool_decide as Hmem.
    + exists ts. rewrite dict_setitem_keys, Hhas. repeat split; try done.
      * intros Ht. apply elem_of_app. left. by apply Hin.
      * intros [Ht|Ht%list_elem_of_singleton]%elem_of_app; [by apply Hin|by subst].
      * intros [_ [Hnot _]]%NoDup_app. exfalso. apply (Hnot t); [by apply Hin|].
        by apply list_elem_of_singleton.
    + exists (ts ++ [t]). rewrite dict_setitem_keys, Hhas, Hkeys, fmap_app.
      repeat split; try done.
      * apply NoDup_app. repeat split; [done| |apply NoDup_singleton].
        intros t' Ht' ->%list_elem_of_singleton. done.
      * intros [Ht|Ht]%elem_of_app; apply elem_of_app; [left; by apply Hin|by right].
      * intros [Ht|Ht]%elem_of_app; apply elem_of_app; [left; by apply Hin|by right].
      * intros [Hnd' _]%NoDup_app. rewrite dict_setitem_fresh by done.
        by rewrite (Hid Hnd').
Qed.

Lemma NoDup_same_elements_length (l1 l2 : list str) :
  NoDup l1 -> (forall t, t ∈ l1 <-> t ∈ l2) ->
  (length l1 <= length l2)%nat /\ (length l1 = length l2 -> NoDup l2).
Proof.
  intros Hnd Hin.
  assert (Hsub : l1 ⊆+ l2) by (apply NoDup_submseteq; [done|]; intros t; apply Hin).
  split; [by apply submseteq_length|].
  intros Hlen. rewrite <- (submseteq_length_Permutation l1 l2 Hsub); [done|lia].
Qed.

Lemma dict_of_items_length (texts : list str) (contexts : list value) :
  length contexts = length texts ->
  (length (dict_of_items key_eqb (zip (VStr <$> texts) contexts)) <= length texts)%nat
  /\ (length (dict_of_items key_eqb (zip (VStr <$> texts) contexts)) = length texts
      <-> NoDup texts).
Proof.
  intros Hlen. destruct (dict_of_items_str texts contexts Hlen)
    as (ts & Hkeys & Hnd & Hin & Hid).
  assert (Hl : length (dict_of_items key_eqb (zip (VStr <$> texts) contexts))
               = length ts).
  { rewrite <- (length_fmap fst), Hkeys. apply length_fmap. }
  rewrite Hl. destruct (NoDup_same_elements_length ts texts Hnd Hin) as [Hle Heq].
  split; [done|]. split; [done|].
  intros Hnd'. rewrite <- Hl, (Hid Hnd'), length_zip_with, length_fmap. lia.
Qed.

End CellFacts.

Lemma row_getitem_lookup df i name (column : list value) x :
  columns df !! name = Some column -> column !! i = Some x ->
  row_getitem df i name = Ok x.
Proof.
  intros Hcol Hx. unfold row_getitem, df_getitem. rewrite Hcol.
  cbn [mbind result_bind]. by rewrite Hx.
Qed.

(** The comprehension visits the rows in order and inserts each pair. *)
Lemma retrievals_data_of_run key_eqb df context_index (tcol ccol : list value) :
  columns df !! pystr "text" = Some tcol ->
  columns df !! (pystr "context_text_" ++ format_int context_index) = Some ccol ->
  length tcol = nrows df -> length ccol = nrows df ->
  Forall (fun k => hashable k = true) tcol ->
  retrievals_data_of key_eqb df context_index
  = Ok (dict_of_items key_eqb (zip tcol ccol)).
Proof.
  intros Ht Hc Lt Lc Hhash. unfold retrievals_data_of.
  assert (Hprefix : forall n, (n <= nrows df)%nat ->
            foldl (retrievals_data_step key_eqb df context_index) (Ok []) (seq 0 n)
            = Ok (dict_of_items key_eqb (take n (zip tcol ccol)))).
  { induction n as [|n IH]; intros Hn; [done|].
    rewrite seq_S, foldl_app, IH by lia. cbn [foldl Nat.add].
    destruct (lookup_lt_is_Some_2 tcol n) as [k Hk]; [lia|].
    destruct (lookup_lt_is_Some_2 ccol n) as [v Hv]; [lia|].
    unfold retrievals_data_step. cbn [mbind result_bind].
    rewrite (row_getitem_lookup df n _ tcol k Ht Hk). cbn [mbind result_bind].
    rewrite (row_getitem_lookup df n _ ccol v Hc Hv). cbn [mbind result_bind].
    rewrite (proj1 (Forall_lookup _ _) Hhash n k Hk).
    rewrite (take_S_r _ _ (k, v)) by by rewrite lookup_zip_with, Hk, Hv.
    unfold dict_of_items. by rewrite foldl_app. }
  rewrite Hprefix by done. rewrite take_ge; [done|].
  rewrite length_zip_with. lia.
Qed.

Lemma columns_df_head n df name :
  columns (df_head n df) !! name = take n <$> columns df !! name.
Proof. unfold df_head. cbn [columns]. apply lookup_fmap. Qed.

Section StepFacts.
Context (py : interpreter).
Context {World : Type}.
Context (evaluate : value -> value -> str -> World -> result str * World).
Context (key_eqb : value -> value -> bool).
Context (key_eqb_str : forall s t, key_eqb (VStr s) (VStr t) = bool_decide (s = t)).

(** One turn of the loop on a sample whose text column holds strings. *)
Lemma evaluation_step_run context_index df (texts : list str) (contexts : list value) w :
  columns df !! pystr "text" = Some (VStr <$> texts) ->
  columns df !! (pystr "context_text_" ++ format_int context_index) = Some contexts ->
  length texts = nrows df -> length contexts = nrows df ->
  evaluation_step py evaluate key_eqb context_index df w
  = match evaluate_retrievals evaluate
            (dict_of_items key_eqb (zip (VStr <$> texts) contexts))
            evaluation_model_name w with
    | (Raise e, w') => (Raise e, w')
    | (Ok raw_responses, w') =>
        (df_setitem_list df (pystr "openai_relevance_" ++ format_int context_index)
           (cell_of_label <$> (parsed_label py relevance_map <$> raw_responses)),
         w')
    end.
Proof.
  intros Ht Hc Lt Lc. unfold evaluation_step.
  rewrite (retrievals_data_of_run key_eqb df context_index _ contexts Ht Hc);
    [|by rewrite length_fmap|done|].
  2: { apply Forall_fmap, Forall_forall. by intros. }
  destruct (evaluate_retrievals _ _ _ _) as [[raw|e] w']; [|done].
  by rewrite process_binary_responses_fmap.
Qed.

Lemma evaluation_step_duplicate context_index df (texts : list str) contexts w :
  columns df !! pystr "text" = Some (VStr <$> texts) ->
  columns df !! (pystr "context_text_" ++ format_int context_index) = Some contexts ->
  length texts = nrows df -> length contexts = nrows df ->
  ~ NoDup texts ->
  exists e w', evaluation_step py evaluate key_eqb context_index df w = (Raise e, w')
    /\ forall raw_responses w1,
         evaluate_retrievals evaluate
           (dict_of_items key_eqb (zip (VStr <$> texts) contexts))
           evaluation_model_name w = (Ok raw_responses, w1) ->
         e = ValueError /\ w' = w1.
Proof.
  intros Ht Hc Lt Lc Hdup. rewrite (evaluation_step_run _ _ texts contexts) by done.
  destruct (dict_of_items_length key_eqb key_eqb_str texts contexts) as [Hle Hiff];
    [lia|].
  destruct (evaluate_retrievals _ _ _ _) as [[raw|e] w'] eqn:Hcalls.
  - apply evaluate_retrievals_length in Hcalls.
    assert (Hlt : (length raw < nrows df)%nat).
    { destruct (decide (length raw = nrows df)) as [Heq|]; [|lia].
      exfalso. apply Hdup, Hiff. lia. }
    exists ValueError, w'. split; [|by intros ? ? [= <- <-]].
    unfold df_setitem_list. rewrite !length_fmap.
    replace (Nat.eqb (nrows df) 0) with false by (symmetry; apply Nat.eqb_neq; lia).
    by replace (Nat.eqb (length raw) (nrows df)) with false
      by (symmetry; apply Nat.eqb_neq; lia).
  - exists e, w'. split; [done|]. by intros.
Qed.

Lemma evaluation_step_distinct context_index df (texts : list str) contexts w raw w' :
  columns df !! pystr "text" = Some (VStr <$> texts) ->
  columns df !! (pystr "context_text_" ++ format_int context_index) = Some contexts ->
  length texts = nrows df -> length contexts = nrows df ->
  NoDup texts ->
  evaluate_retrievals evaluate (zip (VStr <$> texts) contexts)
    evaluation_model_name w = (Ok raw, w') ->
  length raw = nrows df
  /\ evaluation_step py evaluate key_eqb context_index df w
     = (Ok {| nrows := nrows df;
              columns :=
                <[pystr "openai_relevance_" ++ format_int context_index :=
                    cell_of_label <$> (parsed_label py relevance_map <$> raw)]>
                  (columns df) |}, w').
Proof.
  intros Ht Hc Lt Lc Hnd Hcalls.
  destruct (dict_of_items_str key_eqb key_eqb_str texts contexts)
    as (_ & _ & _ & _ & Hid); [lia|].
  rewrite (evaluation_step_run _ _ texts contexts) by done.
  rewrite (Hid Hnd), Hcalls.
  apply evaluate_retrievals_length in Hcalls.
  rewrite length_zip_with, length_fmap in Hcalls.
  assert (Hlen : length raw = nrows df) by lia. split; [done|].
  unfold df_setitem_list. rewrite !length_fmap, Hlen, Nat.eqb_refl.
  destruct (nrows df); [done|]. done.
Qed.

End StepFacts.

Section CellTheorems.
Context (py : interpreter).
Context {World : Type}.
Context (evaluate : value -> value -> str -> World -> result str * World).
Context (key_eqb : value -> value -> bool).
Context (key_eqb_str : forall s t, key_eqb (VStr s) (VStr t) = bool_decide (s = t)).

Lemma df_head_column n df name (column : list value) :
  columns df !! name = Some column -> length column = nrows df ->
  columns (df_head n df) !! name = Some (take n column)
  /\ length (take n column) = nrows (df_head n df).
Proof.
  intros Hcol Hlen. rewrite columns_df_head, Hcol. split; [done|].
  rewrite length_take, Hlen. done.
Qed.

(** X19: when two of the first ten rows have the same query text, the
    dict comprehension has fewer items than the sample has rows, and the cell
    never completes: if every evaluation call answers, the assignment of the
    column raises [ValueError] after all of them. *)
Theorem evaluation_cell_duplicate_text query_df0 (texts : list str) contexts w :
  columns query_df0 !! pystr "text" = Some (VStr <$> texts) ->
  columns query_df0 !! pystr "context_text_0" = Some contexts ->
  length texts = nrows query_df0 -> length contexts = nrows query_df0 ->
  ~ NoDup (take 10 texts) ->
  exists e w',
    evaluation_cell py evaluate key_eqb 2 query_df0 w = (Raise e, w')
    /\ forall raw_responses w1,
         evaluate_retrievals evaluate
           (dict_of_items key_eqb (zip (VStr <$> take 10 texts) (take 10 contexts)))
           evaluation_model_name w = (Ok raw_responses, w1) ->
         e = ValueError /\ w' = w1.
Proof.
  intros Ht Hc Lt Lc Hdup.
  destruct (df_head_column 10 query_df0 _ _ Ht) as [Ht' Lt']; [by rewrite length_fmap|].
  destruct (df_head_column 10 query_df0 _ _ Hc) as [Hc' Lc']; [done|].
  rewrite <- fmap_take in Ht', Lt'. rewrite length_fmap in Lt'.
  destruct (evaluation_step_duplicate py evaluate key_eqb key_eqb_str 0
              (df_head 10 query_df0) (take 10 texts) (take 10 contexts) w
              Ht' Hc' Lt' Lc' Hdup) as (e & w' & Hstep & Hcalls).
  exists e, w'. split; [|exact Hcalls].
  unfold evaluation_cell. rewrite range_0_2. cbn [foldl]. by rewrite Hstep.
Qed.

(** X20: when the first ten query texts are distinct and the evaluation
    calls answer, the cell ends with the first ten rows and two new columns,
    "openai_relevance_0" and "openai_relevance_1", holding one processed
    response per row, in row order. *)
Theorem evaluation_cell_labels
    query_df0 (texts : list str) contexts0 contexts1 w raw0 w1 raw1 w2 :
  columns query_df0 !! pystr "text" = Some (VStr <$> texts) ->
  columns query_df0 !! pystr "context_text_0" = Some contexts0 ->
  columns query_df0 !! pystr "context_text_1" = Some contexts1 ->
  length texts = nrows query_df0 ->
  length contexts0 = nrows query_df0 -> length contexts1 = nrows query_df0 ->
  NoDup (take 10 texts) ->
  evaluate_retrievals evaluate (zip (VStr <$> take 10 texts) (take 10 contexts0))
    evaluation_model_name w = (Ok raw0, w1) ->
  evaluate_retrievals evaluate (zip (VStr <$> take 10 texts) (take 10 contexts1))
    evaluation_model_name w1 = (Ok raw1, w2) ->
  length raw0 = Nat.min 10 (nrows query_df0)
  /\ length raw1 = Nat.min 10 (nrows query_df0)
  /\ evaluation_cell py evaluate key_eqb 2 query_df0 w
     = (Ok {| nrows := Nat.min 10 (nrows query_df0);
              columns :=
                <[pystr "openai_relevance_1" :=
                    cell_of_label <$> (parsed_label py relevance_map <$> raw1)]>
                  (<[pystr "openai_relevance_0" :=
                       cell_of_label <$> (parsed_label py relevance_map <$> raw0)]>
                     (take 10 <$> columns query_df0)) |}, w2).
Proof.
  intros Ht Hc0 Hc1 Lt L0 L1 Hnd Hcalls0 Hcalls1.
  destruct (df_head_column 10 query_df0 _ _ Ht) as [Ht' Lt']; [by rewrite length_fmap|].
  destruct (df_head_column 10 query_df0 _ _ Hc0) as [Hc0' L0']; [done|].
  destruct (df_head_column 10 query_df0 _ _ Hc1) as [Hc1' L1']; [done|].
  rewrite <- fmap_take in Ht', Lt'. rewrite length_fmap in Lt'.
  destruct (evaluation_step_distinct py evaluate key_eqb key_eqb_str 0
              (df_head 10 query_df0) (take 10 texts) (take 10 contexts0) w raw0 w1
              Ht' Hc0' Lt' L0' Hnd Hcalls0) as [Hlen0 Hstep0].
  set (df1 := {| nrows := nrows (df_head 10 query_df0);
                 columns :=
                   <[pystr "openai_relevance_" ++ format_int 0 :=
                       cell_of_label <$> (parsed_label py relevance_map <$> raw0)]>
                     (columns (df_head 10 query_df0)) |}) in *.
  assert (Ht1 : columns df1 !! pystr "text" = Some (VStr <$> take 10 texts)).
  { cbn [df1 columns]. rewrite lookup_insert_ne by by vm_compute. exact Ht'. }
  assert (Hc1'' : columns df1 !! (pystr "context_text_" ++ format_int 1)
                  = Some (take 10 contexts1)).
  { cbn [df1 columns]. rewrite lookup_insert_ne by by vm_compute. exact Hc1'. }
  destruct (evaluation_step_distinct py evaluate key_eqb key_eqb_str 1
              df1 (take 10 texts) (take 10 contexts1) w1 raw1 w2
              Ht1 Hc1'' Lt' L1' Hnd Hcalls1) as [Hlen1 Hstep1].
  split; [exact Hlen0|]. split; [exact Hlen1|].
  unfold evaluation_cell. rewrite range_0_2. cbn [foldl].
  rewrite Hstep0. fold df1. rewrite Hstep1. reflexivity.
Qed.

End CellTheorems.

(** ** The loader on a complete index *)

(** X15: when every document of the docstore has a text and an embedding
    that [np.array] accepts, and pandas accepts the two lists, the loader
    returns the dataframe with one row per document and the two columns that
    pandas stores for the texts and for the vectors of the documents in
    iteration order: one cell per document in each. *)
Theorem loader_total
    (pd : pandas) (np_array : value -> result value)
    docstore vector_store data doc_ids text_list embeddings_list texts vectors :
  getitem docstore (VStr (pystr "docstore/data")) = Ok data ->
  iterate data = Ok doc_ids ->
  Forall2 (fun doc_id t => document_text docstore doc_id = Ok t)
          doc_ids text_list ->
  Forall2 (fun doc_id v =>
             document_embedding np_array vector_store doc_id = Ok v)
          doc_ids embeddings_list ->
  sanitize_array pd text_list = Ok texts ->
  sanitize_array pd embeddings_list = Ok vectors ->
  load_llama_index_database_into_dataframe pd np_array docstore vector_store
  = Ok {| nrows := length doc_ids;
          columns := <[pystr "text" := texts]>
                       (<[pystr "text_vector" := vectors]> ∅) |}
  /\ length texts = length doc_ids
  /\ length vectors = length doc_ids.
Proof.
  intros Hdata Hids Hts Hvs Hsan_t Hsan_v.
  pose proof (Forall2_length _ _ _ Hts) as Lts.
  pose proof (Forall2_length _ _ _ Hvs) as Lvs.
  pose proof (length_sanitize_array _ _ _ Hsan_t) as Lt.
  pose proof (length_sanitize_array _ _ _ Hsan_v) as Lv.
  split; [|split; congruence].
  unfold load_llama_index_database_into_dataframe. rewrite Hdata.
  cbn [mbind result_bind]. rewrite Hids. cbn [mbind result_bind]. unfold loader_loop.
  rewrite (loader_loop_Forall2 np_array docstore vector_store doc_ids [] []
             text_list embeddings_list Hts Hvs).
  cbn [mbind result_bind fst snd app].
  rewrite (pd_DataFrame_two_Ok pd _ _ _ _ texts vectors); [|congruence|done..].
  by rewrite <- Lts.
Qed.

(** ** Instances *)

Lemma sample_isspace_conforms todecimal limit :
  conforms (Interpreter sample_isspace todecimal limit).
Proof. exact sample_interpreter_conforms. Qed.

Lemma str_key_eqb_str s t : str_key_eqb (VStr s) (VStr t) = bool_decide (s = t).
Proof. reflexivity. Qed.

Lemma surrounding_whitespace_ignored_witness :
  process_binary_responses sample_interpreter
    [[32; 9] ++ pystr "1" ++ [13; 10]] relevance_map
  = process_binary_responses sample_interpreter [pystr "1"] relevance_map.
Proof.
  apply (surrounding_whitespace_ignored sample_interpreter relevance_map
           [32; 9] (pystr "1") [13; 10]); by repeat constructor.
Defined.

Lemma labels_come_from_map_witness :
  (forall i label,
     [Some (pystr "relevant"); None] !! i = Some (Some label) ->
     exists s v, [pystr "1"; pystr "maybe"] !! i = Some s
       /\ int sample_interpreter (strip sample_interpreter s) = Ok v
       /\ relevance_map !! v = Some label)
  /\ (relevance_map = ∅ ->
      [Some (pystr "relevant"); None]
      = replicate (length [pystr "1"; pystr "maybe"]) None).
Proof.
  apply (labels_come_from_map sample_interpreter
           [pystr "1"; pystr "maybe"] relevance_map).
  vm_compute. reflexivity.
Defined.

Lemma numerals_labelled_by_value_witness :
  process_binary_responses sample_interpreter [numeral (Some false) [0; 0; 1]]
    relevance_map
  = Ok [relevance_map !! signed_value (Some false) [0; 0; 1]]
  /\ process_binary_responses sample_interpreter [numeral (Some false) [0; 0; 1]]
       relevance_map
     = Ok [binary_label (Ok (signed_value (Some false) [0; 0; 1]))].
Proof.
  apply (numerals_labelled_by_value sample_interpreter relevance_map
           (Some false) [0; 0; 1]).
  - exact sample_interpreter_conforms.
  - discriminate.
  - repeat constructor.
  - cbn. lia.
Defined.

Lemma long_numerals_depend_on_digit_limit_witness :
  (0 < max_str_digits strict_interpreter
     < N.of_nat (length (replicate 640 0 ++ [1])) ->
   process_binary_responses strict_interpreter
     [numeral None (replicate 640 0 ++ [1])] relevance_map = Ok [None])
  /\ (max_str_digits strict_interpreter = 0
      \/ N.of_nat (length (replicate 640 0 ++ [1]))
         <= max_str_digits strict_interpreter ->
      process_binary_responses strict_interpreter
        [numeral None (replicate 640 0 ++ [1])] relevance_map
      = Ok [relevance_map !! signed_value None (replicate 640 0 ++ [1])]).
Proof.
  apply (long_numerals_depend_on_digit_limit strict_interpreter relevance_map
           None (replicate 640 0 ++ [1])).
  - apply sample_isspace_conforms.
  - apply Forall_app. split; [apply Forall_replicate; lia|].
    apply Forall_singleton. lia.
  - rewrite length_app, length_replicate. cbn. lia.
Defined.

Lemma precision_values_bounded_witness :
  exists st p1 p2,
    precision_cell 2
      (relevance_frame [VStr (pystr "relevant"); VNone]
                       [VStr (pystr "relevant"); VStr (pystr "irrelevant")])
    = Ok st
    /\ columns (query_df st) !! pystr "openai_precision@1" = Some p1
    /\ columns (query_df st) !! pystr "openai_precision@2" = Some p2
    /\ (forall i v, p1 !! i = Some v -> v = VFloat 0 \/ v = VFloat 1)
    /\ (forall i v, p2 !! i = Some v ->
          v = VFloat 0 \/ v = VFloat 0.5 \/ v = VFloat 1).
Proof.
  apply (precision_values_bounded
           (relevance_frame [VStr (pystr "relevant"); VNone]
                            [VStr (pystr "relevant"); VStr (pystr "irrelevant")])
           [VStr (pystr "relevant"); VNone]
           [VStr (pystr "relevant"); VStr (pystr "irrelevant")]).
  - discriminate.
  - by apply relevance_frame_well_formed.
  - vm_compute. reflexivity.
  - vm_compute. reflexivity.
Defined.

Lemma precision_zero_iff_nothing_relevant_witness :
  exists st p1 p2,
    precision_cell 2
      (relevance_frame [VStr (pystr "relevant"); VNone]
                       [VStr (pystr "relevant"); VStr (pystr "irrelevant")])
    = Ok st
    /\ columns (query_df st) !! pystr "openai_precision@1" = Some p1
    /\ columns (query_df st) !! pystr "openai_precision@2" = Some p2
    /\ forall i x0 x1,
         [VStr (pystr "relevant"); VNone] !! i = Some x0 ->
         [VStr (pystr "relevant"); VStr (pystr "irrelevant")] !! i = Some x1 ->
         (p2 !! i = Some (VFloat 0)
          <-> x0 <> VStr (pystr "relevant") /\ x1 <> VStr (pystr "relevant"))
         /\ (p2 !! i = Some (VFloat 1)
             <-> x0 = VStr (pystr "relevant") /\ x1 = VStr (pystr "relevant"))
         /\ (p1 !! i = Some (VFloat 1) <-> x0 = VStr (pystr "relevant")).
Proof.
  apply (precision_zero_iff_nothing_relevant
           (relevance_frame [VStr (pystr "relevant"); VNone]
                            [VStr (pystr "relevant"); VStr (pystr "irrelevant")])
           [VStr (pystr "relevant"); VNone]
           [VStr (pystr "relevant"); VStr (pystr "irrelevant")]).
  - discriminate.
  - by apply relevance_frame_well_formed.
  - vm_compute. reflexivity.
  - vm_compute. reflexivity.
Defined.

Lemma precision_cell_frame_witness :
  let df := relevance_frame [VStr (pystr "relevant")] [VNone] in
  let st := match precision_cell 2 df with
            | Ok st => st
            | Raise _ => {| num_retrieved_documents := 2;
                            num_relevant_documents_array := [];
                            query_df := df |}
            end in
  nrows (query_df st) = nrows df
  /\ (forall name,
        name <> pystr "openai_precision@1" -> name <> pystr "openai_precision@2" ->
        columns (query_df st) !! name = columns df !! name)
  /\ (well_formed df -> well_formed (query_df st)).
Proof.
  intros df st. apply (precision_cell_frame df st). vm_compute. reflexivity.
Defined.

Lemma precision_cell_missing_column_witness :
  precision_cell 2 {| nrows := 1; columns := ∅ |} = Raise KeyError.
Proof.
  apply (proj1 (precision_cell_missing_column {| nrows := 1; columns := ∅ |})).
  reflexivity.
Defined.

Lemma precision_cell_idempotent_witness :
  let df := relevance_frame [VStr (pystr "relevant"); VNone]
                            [VNone; VStr (pystr "relevant")] in
  let st := match precision_cell 2 df with
            | Ok st => st
            | Raise _ => {| num_retrieved_documents := 2;
                            num_relevant_documents_array := [];
                            query_df := df |}
            end in
  precision_cell (num_retrieved_documents st) (query_df st) = Ok st.
Proof.
  intros df st.
  apply (precision_cell_idempotent df
           [VStr (pystr "relevant"); VNone] [VNone; VStr (pystr "relevant")] st).
  - discriminate.
  - by apply relevance_frame_well_formed.
  - vm_compute. reflexivity.
  - vm_compute. reflexivity.
  - vm_compute. reflexivity.
Defined.

Lemma loader_empty_docstore_witness :
  load_llama_index_database_into_dataframe sample_pandas Ok
    (VDict [(pystr "docstore/data", VDict [])]) VNone
  = Ok empty_database.
Proof.
  apply (loader_empty_docstore sample_pandas Ok
           (VDict [(pystr "docstore/data", VDict [])]) VNone (VDict []));
    reflexivity.
Defined.

Lemma loader_first_failure_witness :
  load_llama_index_database_into_dataframe sample_pandas Ok sample_docstore
    (VDict [(pystr "embedding_dict", VDict [(pystr "a", VList [VFloat 3])])])
  = Raise KeyError.
Proof.
  apply (loader_first_failure sample_pandas Ok sample_docstore _
           (VDict [(pystr "a", VDict [(pystr "__data__",
                      VDict [(pystr "text", VStr (pystr "hello"))])]);
                   (pystr "b", VDict [(pystr "__data__",
                      VDict [(pystr "text", VStr (pystr "world"))])])])
           [VStr (pystr "a")] (VStr (pystr "b")) []).
  - reflexivity.
  - reflexivity.
  - constructor; [|constructor]. eexists _, _. split; vm_compute; reflexivity.
  - right. split; [eexists|]; vm_compute; reflexivity.
Defined.


Lemma loader_ignores_embedding_order_witness :
  load_llama_index_database_into_dataframe sample_pandas Ok
    sample_docstore sample_vector_store
  = load_llama_index_database_into_dataframe sample_pandas Ok sample_docstore
      (VDict [(pystr "embedding_dict",
               VDict [(pystr "a", VList [VFloat 3; VFloat 4]);
                      (pystr "b", VList [VFloat 1; VFloat 2])])]).
Proof.
  apply (loader_ignores_embedding_order sample_pandas Ok
           sample_docstore sample_vector_store _
           [(pystr "b", VList [VFloat 1; VFloat 2]);
            (pystr "a", VList [VFloat 3; VFloat 4])]
           [(pystr "a", VList [VFloat 3; VFloat 4]);
            (pystr "b", VList [VFloat 1; VFloat 2])]).
  - reflexivity.
  - reflexivity.
  - apply NoDup_cons. split; [|apply NoDup_singleton].
    intros H%list_elem_of_singleton. discriminate H.
  - apply perm_swap.
Defined.

Lemma loader_total_witness :
  load_llama_index_database_into_dataframe sample_pandas Ok
    mixed_docstore sample_vector_store
  = Ok {| nrows := 2;
          columns := <[pystr "text" := [VFloat nan; VFloat 7]]>
                       (<[pystr "text_vector" :=
                            [VList [VFloat 3; VFloat 4];
                             VList [VFloat 1; VFloat 2]]]> ∅) |}
  /\ length [VFloat nan; VFloat 7] = 2%nat
  /\ length [VList [VFloat 3; VFloat 4]; VList [VFloat 1; VFloat 2]] = 2%nat.
Proof.
  apply (loader_total sample_pandas Ok mixed_docstore sample_vector_store
           (VDict [(pystr "a", VDict [(pystr "__data__",
                      VDict [(pystr "text", VNone)])]);
                   (pystr "b", VDict [(pystr "__data__",
                      VDict [(pystr "text", VInt 7)])])])
           [VStr (pystr "a"); VStr (pystr "b")]
           [VNone; VInt 7]
           [VList [VFloat 3; VFloat 4]; VList [VFloat 1; VFloat 2]]).
  - reflexivity.
  - reflexivity.
  - repeat constructor.
  - repeat constructor.
  - reflexivity.
  - reflexivity.
Defined.

Lemma evaluate_retrievals_length_witness :
  length [pystr "1"; pystr "0"]
  = length [(VStr (pystr "q1"), VStr (pystr "c1"));
            (VStr (pystr "q2"), VStr (pystr "c2"))].
Proof.
  apply (evaluate_retrievals_length scripted_call
           [(VStr (pystr "q1"), VStr (pystr "c1"));
            (VStr (pystr "q2"), VStr (pystr "c2"))]
           evaluation_model_name
           [Some (pystr "1"); Some (pystr "0")] [pystr "1"; pystr "0"] []).
  reflexivity.
Defined.

Lemma evaluate_retrievals_first_failure_witness :
  evaluate_retrievals scripted_call
    ([(VStr (pystr "q1"), VStr (pystr "c1"))]
     ++ (VStr (pystr "q2"), VStr (pystr "c2"))
     :: [(VStr (pystr "q3"), VStr (pystr "c3"))])
    evaluation_model_name [Some (pystr "1"); None; Some (pystr "0")]
  = (Raise ValueError, [Some (pystr "0")]).
Proof.
  apply (evaluate_retrievals_first_failure scripted_call
           [(VStr (pystr "q1"), VStr (pystr "c1"))]
           (VStr (pystr "q2"), VStr (pystr "c2"))
           [(VStr (pystr "q3"), VStr (pystr "c3"))]
           evaluation_model_name
           [Some (pystr "1"); None; Some (pystr "0")]
           [pystr "1"] [None; Some (pystr "0")]); reflexivity.
Defined.

Lemma evaluation_cell_duplicate_text_witness :
  exists e w',
    evaluation_cell sample_interpreter scripted_call str_key_eqb 2
      (sample_queries [pystr "q"; pystr "q"] [pystr "c1"; pystr "c2"]
                      [pystr "d1"; pystr "d2"])
      [Some (pystr "1"); Some (pystr "0")]
    = (Raise e, w')
    /\ forall raw_responses w1,
         evaluate_retrievals scripted_call
           (dict_of_items str_key_eqb
              (zip (VStr <$> take 10 [pystr "q"; pystr "q"])
                   (take 10 (VStr <$> [pystr "c1"; pystr "c2"]))))
           evaluation_model_name [Some (pystr "1"); Some (pystr "0")]
         = (Ok raw_responses, w1) ->
         e = ValueError /\ w' = w1.
Proof.
  apply (evaluation_cell_duplicate_text sample_interpreter scripted_call
           str_key_eqb str_key_eqb_str
           (sample_queries [pystr "q"; pystr "q"] [pystr "c1"; pystr "c2"]
                           [pystr "d1"; pystr "d2"])
           [pystr "q"; pystr "q"] (VStr <$> [pystr "c1"; pystr "c2"])).
  - vm_compute. reflexivity.
  - vm_compute. reflexivity.
  - reflexivity.
  - reflexivity.
  - intros Hnd. apply NoDup_cons in Hnd as [Hnot _]. apply Hnot. by left.
Defined.

Lemma evaluation_cell_labels_witness :
  length [pystr "1"; pystr "0"]
  = Nat.min 10 (nrows (sample_queries [pystr "q1"; pystr "q2"]
                         [pystr "c1"; pystr "c2"] [pystr "d1"; pystr "d2"]))
  /\ length [pystr " 1"; pystr "no"]
     = Nat.min 10 (nrows (sample_queries [pystr "q1"; pystr "q2"]
                            [pystr "c1"; pystr "c2"] [pystr "d1"; pystr "d2"]))
  /\ evaluation_cell sample_interpreter scripted_call str_key_eqb 2
       (sample_queries [pystr "q1"; pystr "q2"]
          [pystr "c1"; pystr "c2"] [pystr "d1"; pystr "d2"])
       [Some (pystr "1"); Some (pystr "0"); Some (pystr " 1"); Some (pystr "no")]
     = (Ok {| nrows :=
                Nat.min 10 (nrows (sample_queries [pystr "q1"; pystr "q2"]
                                     [pystr "c1"; pystr "c2"]
                                     [pystr "d1"; pystr "d2"]));
              columns :=
                <[pystr "openai_relevance_1" :=
                    cell_of_label
                    <$> (parsed_label sample_interpreter relevance_map
                         <$> [pystr " 1"; pystr "no"])]>
                  (<[pystr "openai_relevance_0" :=
                       cell_of_label
                       <$> (parsed_label sample_interpreter relevance_map
                            <$> [pystr "1"; pystr "0"])]>
                     (take 10
                      <$> columns (sample_queries [pystr "q1"; pystr "q2"]
                                     [pystr "c1"; pystr "c2"]
                                     [pystr "d1"; pystr "d2"]))) |}, []).
Proof.
  apply (evaluation_cell_labels sample_interpreter scripted_call
           str_key_eqb str_key_eqb_str
           (sample_queries [pystr "q1"; pystr "q2"]
              [pystr "c1"; pystr "c2"] [pystr "d1"; pystr "d2"])
           [pystr "q1"; pystr "q2"]
           (VStr <$> [pystr "c1"; pystr "c2"]) (VStr <$> [pystr "d1"; pystr "d2"])
           [Some (pystr "1"); Some (pystr "0"); Some (pystr " 1"); Some (pystr "no")]
           [pystr "1"; pystr "0"] [Some (pystr " 1"); Some (pystr "no")]
           [pystr " 1"; pystr "no"] []).
  - vm_compute. reflexivity.
  - vm_compute. reflexivity.
  - vm_compute. reflexivity.
  - reflexivity.
  - reflexivity.
  - reflexivity.
  - apply NoDup_cons. split; [|apply NoDup_singleton].
    intros H%list_elem_of_singleton. discriminate H.
  - reflexivity.
  - reflexivity.
Defined.
